(** * Client-report record keeper: the record store, the credential
      manager and the tabular exports

    A shallow embedding of [src/database.py], [src/auth.py] and the
    Excel/CSV part of [src/reports.py].

    The program keeps its data in an SQLite file and opens one connection
    per method.  The embedding replaces the file by a value of type [db]
    (the rows of each table in insertion order, together with the
    AUTOINCREMENT counter SQLite keeps in [sqlite_sequence]) and every
    method by a function from the database before the call to an outcome
    and the database after it.  What a method reads from its environment
    (the clock, the salt [bcrypt.gensalt] draws) is an explicit argument. *)

From Stdlib Require Import ZArith Ascii String List Bool Lia.
From stdpp Require Import base option list sorting gmap strings pretty.

Local Open Scope string_scope.
Local Open Scope list_scope.
Local Open Scope Z_scope.

(** ** Rows of the persisted schema ([initialize_database]) *)

(** [clients]: [name] and [email] are [TEXT NOT NULL]; the five contact
    columns and the two timestamps are nullable ([None] is SQL NULL), the
    timestamps default to [CURRENT_TIMESTAMP] and are only ever written
    with text. *)
Module Clients.
Record row : Type := mk {
  id : Z;
  name : string;
  email : string;
  phone : option string;
  company : option string;
  address : option string;
  city : option string;
  country : option string;
  created_at : option string;
  updated_at : option string
}.
End Clients.

(** [users]: [username] is [UNIQUE NOT NULL]. *)
Module Users.
Record row : Type := mk {
  id : Z;
  username : string;
  password_hash : string;
  is_admin : bool;
  created_at : option string
}.
End Users.

#[global] Instance clients_row_eq_dec : EqDecision Clients.row.
Proof. solve_decision. Defined.

#[global] Instance users_row_eq_dec : EqDecision Users.row.
Proof. solve_decision. Defined.

(** The database file: the two tables the modelled methods touch and
    their [sqlite_sequence] entries. *)
Record db : Type := mk_db {
  users : list Users.row;
  users_seq : Z;
  clients : list Clients.row;
  clients_seq : Z
}.

(** The database right after [initialize_database] on a fresh file. *)
Definition empty_db : db :=
  {| users := []; users_seq := 0; clients := []; clients_seq := 0 |}.

(** ** Outcomes and the connection monad *)

(** The exceptions the modelled calls can raise. *)
Inductive exn : Type :=
| IntegrityError      (* sqlite3: a UNIQUE or NOT NULL constraint failed *)
| OperationalError    (* sqlite3 *)
| ValueError          (* bcrypt: a password it does not hash *)
| OverflowError       (* sqlite3: an int that is no 64-bit INTEGER *)
| MarkupError.        (* rich: text that is no console markup *)

Inductive outcome (A : Type) : Type :=
| Return (a : A)
| Raise (e : exn).
Arguments Return {A} a.
Arguments Raise {A} e.

(** A computation on an open connection. *)
Definition db_op (A : Type) : Type := db → outcome A * db.

#[global] Instance db_op_ret : MRet db_op := λ A a s, (Return a, s).
#[global] Instance db_op_bind : MBind db_op := λ A B f m s,
  match m s with
  | (Return a, s') => f a s'
  | (Raise e, s') => (Raise e, s')
  end.

(** [with self.get_connection() as conn: body]: the connection commits
    when [body] ends normally and rolls back when it raises. *)
Definition with_connection {A} (body : db_op A) : db_op A := λ s,
  match body s with
  | (Return a, s') => (Return a, s')
  | (Raise e, _) => (Raise e, s)
  end.

(** [conn.commit()]. *)
Definition commit : db_op unit := mret tt.

(** A call that does not touch the database: its outcome, on the
    connection as it stands. *)
Definition call {A} (o : outcome A) : db_op A := λ s, (o, s).

(** ** AUTOINCREMENT *)

Definition max_rowid (ids : list Z) : Z := foldr Z.max 0 ids.

(** The rowid of a new row of an AUTOINCREMENT table: one more than the
    largest rowid the table ever held. *)
Definition next_rowid (seq : Z) (ids : list Z) : Z :=
  Z.max seq (max_rowid ids) + 1.

(** ** The record store ([DatabaseManager]) *)

(** [INSERT INTO clients (name, email, phone, company, address, city,
    country) VALUES (?, ?, ?, ?, ?, ?, ?)]; the result is
    [cursor.lastrowid].  Both timestamp columns take the default, which
    SQLite evaluates once per statement. *)
Definition insert_client (name email : string)
    (phone company address city country : option string)
    (current_timestamp : string) : db_op Z := λ s,
  if bool_decide (email ∈ Clients.email <$> clients s)
  then (Raise IntegrityError, s)
  else
    let rowid := next_rowid (clients_seq s) (Clients.id <$> clients s) in
    (Return rowid,
     {| users := users s; users_seq := users_seq s;
        clients := clients s ++
          [Clients.mk rowid name email phone company address city country
             (Some current_timestamp) (Some current_timestamp)];
        clients_seq := rowid |}).

Definition create_client (name email : string)
    (phone company address city country : option string)
    (current_timestamp : string) : db_op Z :=
  with_connection (
    lastrowid ← insert_client name email phone company address city country
                  current_timestamp;
    _ ← commit;
    mret lastrowid).

(** [SELECT * FROM clients WHERE id = ?] followed by [fetchone]. *)
Definition select_client (client_id : Z) : db_op (option Clients.row) := λ s,
  (Return (find (λ r, bool_decide (Clients.id r = client_id)) (clients s)), s).

(** The record stands for the dictionary [dict(zip(columns, row))] over
    the ten columns of the table. *)
Definition get_client (client_id : Z) : db_op (option Clients.row) :=
  with_connection (select_client client_id).

(** The keyword arguments of [update_client].  The model covers the seven
    editable attributes, which are the names the shell passes, and the
    [updated_at] stamp the method adds itself; [id], [created_at] and
    names that are no column of the table are outside it. *)
Inductive column : Type :=
| col_name | col_email | col_phone | col_company | col_address | col_city
| col_country | col_updated_at.

#[global] Instance column_eq_dec : EqDecision column.
Proof. solve_decision. Defined.

#[global] Instance column_countable : Countable column.
Proof.
  refine (inj_countable'
    (λ c, match c with
          | col_name => 0 | col_email => 1 | col_phone => 2
          | col_company => 3 | col_address => 4 | col_city => 5
          | col_country => 6 | col_updated_at => 7
          end%nat)
    (λ n, match n with
          | 0 => col_name | 1 => col_email | 2 => col_phone
          | 3 => col_company | 4 => col_address | 5 => col_city
          | 6 => col_country | _ => col_updated_at
          end%nat) _).
  by intros [].
Defined.

(** A value bound to a [?] of the statement: a Python [str], or [None]
    for NULL. *)
Abbreviation kwargs_t := (gmap column (option string)).

(** The row after [SET key = ?, ...]: a named column takes the bound
    value, the others keep theirs.  [None] when a NOT NULL column would
    become NULL. *)
Definition assign (kwargs : kwargs_t) (r : Clients.row)
  : option Clients.row :=
  name' ← default (Some (Clients.name r)) (kwargs !! col_name);
  email' ← default (Some (Clients.email r)) (kwargs !! col_email);
  Some (Clients.mk (Clients.id r) name' email'
          (default (Clients.phone r) (kwargs !! col_phone))
          (default (Clients.company r) (kwargs !! col_company))
          (default (Clients.address r) (kwargs !! col_address))
          (default (Clients.city r) (kwargs !! col_city))
          (default (Clients.country r) (kwargs !! col_country))
          (Clients.created_at r)
          (default (Clients.updated_at r) (kwargs !! col_updated_at))).

(** Does a row other than [client_id] hold the email [e]? *)
Definition email_taken_by_other (e : string) (client_id : Z)
    (rows : list Clients.row) : bool :=
  existsb (λ o, bool_decide (Clients.id o ≠ client_id)
                && bool_decide (Clients.email o = e)) rows.

(** [UPDATE clients SET ... WHERE id = ?]; the result is
    [cursor.rowcount].  A statement that violates a constraint changes
    nothing. *)
Definition update_clients (kwargs : kwargs_t) (client_id : Z)
  : db_op nat := λ s,
  let hit r := bool_decide (Clients.id r = client_id) in
  let rowcount := length (List.filter hit (clients s)) in
  match mapM (λ r, if hit r then assign kwargs r else Some r) (clients s) with
  | None => (Raise IntegrityError, s)
  | Some rows' =>
      if bool_decide (0 < rowcount)%nat
         && match kwargs !! col_email with
            | Some (Some e) => email_taken_by_other e client_id (clients s)
            | _ => false
            end
      then (Raise IntegrityError, s)
      else (Return rowcount,
            {| users := users s; users_seq := users_seq s;
               clients := rows'; clients_seq := clients_seq s |})
  end.

(** [now] is [datetime.now().isoformat()]. *)
Definition update_client (client_id : Z) (kwargs : kwargs_t) (now : string)
  : db_op bool :=
  if bool_decide (kwargs = ∅) then mret false
  else
    let kwargs := <[col_updated_at := Some now]> kwargs in
    with_connection (
      rowcount ← update_clients kwargs client_id;
      _ ← commit;
      mret (bool_decide (0 < rowcount)%nat)).

(** [DELETE FROM clients WHERE id = ?]; the result is [cursor.rowcount]. *)
Definition delete_from_clients (client_id : Z) : db_op nat := λ s,
  let hit r := bool_decide (Clients.id r = client_id) in
  (Return (length (List.filter hit (clients s))),
   {| users := users s; users_seq := users_seq s;
      clients := List.filter (λ r, negb (hit r)) (clients s);
      clients_seq := clients_seq s |}).

Definition delete_client (client_id : Z) : db_op bool :=
  with_connection (
    rowcount ← delete_from_clients client_id;
    _ ← commit;
    mret (bool_decide (0 < rowcount)%nat)).

(** *** Aggregates *)

(** A Python [dict] keeps its keys in insertion order; storing under a key
    that is present replaces the value where it stands. *)
Fixpoint dict_set {V} (d : list (string * V)) (k : string) (v : V)
  : list (string * V) :=
  match d with
  | [] => [(k, v)]
  | (k', v') :: d' =>
      if decide (k' = k) then (k, v) :: d' else (k', v') :: dict_set d' k v
  end.

(** [dict(pairs)]. *)
Definition dict {V} (pairs : list (string * V)) : list (string * V) :=
  foldl (λ d kv, dict_set d kv.1 kv.2) [] pairs.

(** [COUNT( * )] of the group of [k]. *)
Definition group_size (k : string) (keys : list string) : nat :=
  length (filter (λ x, x = k) keys).

(** [SELECT col, COUNT( * ) ... GROUP BY col] over the non-null values
    [keys] of the column: one result row per distinct value. *)
Definition group_by_count (keys : list string) : list (string * nat) :=
  (λ k, (k, group_size k keys)) <$> remove_dups keys.

(** [ORDER BY count DESC].  SQL leaves the order among equal counts open;
    the model takes the one its stable merge sort gives. *)
Definition count_desc (a b : string * nat) : Prop := (b.2 ≤ a.2)%nat.

#[global] Instance count_desc_dec a b : Decision (count_desc a b).
Proof. unfold count_desc. apply _. Defined.

#[global] Instance count_desc_trans : Transitive count_desc.
Proof. intros a b c. unfold count_desc. lia. Qed.

#[global] Instance count_desc_total : Total count_desc.
Proof. intros a b. unfold count_desc. lia. Qed.

Definition order_by_count_desc (groups : list (string * nat))
  : list (string * nat) :=
  merge_sort count_desc groups.

(** The dictionary [get_client_stats] returns. *)
Record client_stats : Type := mk_client_stats {
  total_clients : nat;
  clients_by_country : list (string * nat);
  clients_by_city : list (string * nat)
}.

(** [SELECT COUNT( * ) FROM clients]. *)
Definition count_clients : db_op nat := λ s, (Return (length (clients s)), s).

(** [SELECT country, COUNT( * ) as count FROM clients WHERE country IS NOT
    NULL GROUP BY country ORDER BY count DESC]. *)
Definition select_clients_by_country : db_op (list (string * nat)) := λ s,
  (Return (order_by_count_desc
             (group_by_count (omap Clients.country (clients s)))), s).

(** The same over [city], with [LIMIT 10]. *)
Definition select_clients_by_city : db_op (list (string * nat)) := λ s,
  (Return (take 10 (order_by_count_desc
                      (group_by_count (omap Clients.city (clients s))))), s).

Definition get_client_stats : db_op client_stats :=
  with_connection (
    total ← count_clients;
    by_country ← select_clients_by_country;
    by_city ← select_clients_by_city;
    mret {| total_clients := total;
            clients_by_country := dict by_country;
            clients_by_city := dict by_city |}).

(** ** The credential manager ([AuthManager]) *)

(** Values of the dictionaries the credential manager returns. *)
Inductive pyval : Type :=
| PyInt (z : Z)
| PyStr (s : string)
| PyBool (b : bool).

(** [try: body except sqlite3.IntegrityError: return handler]. *)
Definition except_IntegrityError {A} (body : db_op A) (handler : A)
  : db_op A := λ s,
  match body s with
  | (Raise IntegrityError, s') => (Return handler, s')
  | r => r
  end.

Section AuthManager.

(** The two functions of the [bcrypt] package the module calls.  They
    are not part of the repository; the model is parametric in them.
    [hashpw] gives [None] where [bcrypt.hashpw] raises [ValueError] (a
    password over 72 bytes, for one). *)
Variable hashpw : string → string → option string.
Variable checkpw : string → string → bool.

(** [salt] is what [bcrypt.gensalt()] returns at this call. *)
Definition hash_password (password salt : string) : outcome string :=
  match hashpw password salt with
  | Some hashed => Return hashed
  | None => Raise ValueError
  end.

Definition verify_password (password hashed : string) : bool :=
  checkpw password hashed.

(** [INSERT INTO users (username, password_hash, is_admin) VALUES
    (?, ?, ?)]. *)
Definition insert_user (username hashed_password : string)
    (is_admin : bool) (current_timestamp : string) : db_op unit := λ s,
  if bool_decide (username ∈ Users.username <$> users s)
  then (Raise IntegrityError, s)
  else
    let rowid := next_rowid (users_seq s) (Users.id <$> users s) in
    (Return tt,
     {| users := users s ++
          [Users.mk rowid username hashed_password is_admin
             (Some current_timestamp)];
        users_seq := rowid;
        clients := clients s; clients_seq := clients_seq s |}).

Definition create_user (username password : string) (is_admin : bool)
    (salt current_timestamp : string) : db_op bool :=
  except_IntegrityError
    (with_connection (
       hashed_password ← call (hash_password password salt);
       _ ← insert_user username hashed_password is_admin current_timestamp;
       _ ← commit;
       mret true))
    false.

(** [SELECT id, username, password_hash, is_admin FROM users WHERE
    username = ?] followed by [fetchone]. *)
Definition select_user_by_username (username : string)
  : db_op (option Users.row) := λ s,
  (Return (find (λ r, bool_decide (Users.username r = username))
             (users s)), s).

Definition authenticate_user (username password : string)
  : db_op (option (list (string * pyval))) :=
  with_connection (
    row ← select_user_by_username username;
    match row with
    | Some r =>
        if verify_password password (Users.password_hash r)
        then mret (Some [("id", PyInt (Users.id r));
                         ("username", PyStr (Users.username r));
                         ("is_admin", PyBool (Users.is_admin r))])
        else mret None
    | None => mret None
    end).

(** [SELECT COUNT( * ) FROM users]. *)
Definition user_exists : db_op bool :=
  with_connection (λ s, (Return (bool_decide (0 < length (users s))%nat), s)).

(** [SELECT password_hash FROM users WHERE id = ?] followed by
    [fetchone]. *)
Definition select_password_hash (user_id : Z) : db_op (option string) := λ s,
  (Return (Users.password_hash <$>
             find (λ r, bool_decide (Users.id r = user_id)) (users s)), s).

(** [UPDATE users SET password_hash = ? WHERE id = ?]. *)
Definition update_password_hash (new_hash : string) (user_id : Z)
  : db_op unit := λ s,
  (Return tt,
   {| users := (λ r, if bool_decide (Users.id r = user_id)
                     then Users.mk (Users.id r) (Users.username r) new_hash
                            (Users.is_admin r) (Users.created_at r)
                     else r) <$> users s;
      users_seq := users_seq s;
      clients := clients s; clients_seq := clients_seq s |}).

Definition change_password (user_id : Z) (old_password new_password : string)
    (salt : string) : db_op bool :=
  with_connection (
    row ← select_password_hash user_id;
    match row with
    | Some stored =>
        if verify_password old_password stored
        then
          new_hash ← call (hash_password new_password salt);
          _ ← update_password_hash new_hash user_id;
          _ ← commit;
          mret true
        else mret false
    | None => mret false
    end).

End AuthManager.

(** ** The tabular exports ([ReportGenerator]) *)

(** A cell of a [pandas] frame built from client dictionaries: an
    integer, a string, or a missing value ([None]/[NaN]). *)
Inductive cell : Type :=
| CInt (z : Z)
| CStr (s : string)
| CMissing.

Definition text_cell (v : option string) : cell :=
  match v with Some s => CStr s | None => CMissing end.

Definition columns_order : list string :=
  ["id"; "name"; "email"; "phone"; "company"; "address"; "city"; "country";
   "created_at"].

Definition header_labels : list string :=
  ["ID"; "Nombre"; "Email"; "Teléfono"; "Empresa"; "Dirección"; "Ciudad";
   "País"; "Fecha de Registro"].

(** The value of one client under a column label of [pd.DataFrame(clients)];
    a label the frame does not have gives a missing value, as [reindex]
    does. *)
Definition frame_value (label : string) (r : Clients.row) : cell :=
  if decide (label = "id") then CInt (Clients.id r)
  else if decide (label = "name") then CStr (Clients.name r)
  else if decide (label = "email") then CStr (Clients.email r)
  else if decide (label = "phone") then text_cell (Clients.phone r)
  else if decide (label = "company") then text_cell (Clients.company r)
  else if decide (label = "address") then text_cell (Clients.address r)
  else if decide (label = "city") then text_cell (Clients.city r)
  else if decide (label = "country") then text_cell (Clients.country r)
  else if decide (label = "created_at") then text_cell (Clients.created_at r)
  else if decide (label = "updated_at") then text_cell (Clients.updated_at r)
  else CMissing.

(** [pd.DataFrame(clients).reindex(columns=labels)], row by row. *)
Definition reindex (labels : list string) (clients : list Clients.row)
  : list (list cell) :=
  (λ r, (λ label, frame_value label r) <$> labels) <$> clients.

(** A frame with its column labels. *)
Record frame : Type := mk_frame {
  frame_columns : list string;
  frame_rows : list (list cell)
}.

(** The frame both exports write: reordered, then relabelled by
    [df.columns = [...]]. *)
Definition clients_frame (clients : list Clients.row) : frame :=
  {| frame_columns := header_labels;
     frame_rows := reindex columns_order clients |}.

(** What the sheet holds for a value of the frame: a missing value and
    an empty string both leave the cell empty. *)
Definition excel_cell (c : cell) : cell :=
  match c with
  | CStr s => if decide (s = "") then CMissing else CStr s
  | _ => c
  end.

(** The sheet [df.to_excel(writer, sheet_name='Clientes', index=False)]
    writes: a header row, then one row per client. *)
Definition generate_clients_list_excel (clients : list Clients.row)
  : list (list cell) :=
  let df := clients_frame clients in
  (CStr <$> frame_columns df)
  :: ((λ row : list cell, excel_cell <$> row) <$> frame_rows df).

(** [df.to_csv] writes a missing value as its [na_rep], by default the
    empty string. *)
Definition na_rep : string := "".

Definition csv_field (c : cell) : string :=
  match c with
  | CInt z => pretty z
  | CStr s => s
  | CMissing => na_rep
  end.

(** The fields of the file [df.to_csv(filepath, index=False,
    encoding='utf-8')] writes, line by line (before the quoting of fields
    that hold a separator). *)
Definition generate_clients_list_csv (clients : list Clients.row)
  : list (list string) :=
  let df := clients_frame clients in
  frame_columns df :: ((λ row : list cell, csv_field <$> row) <$> frame_rows df).

(** ** The rest of the record store *)

(** SQLite's order on the values of a nullable TEXT column: NULL comes
    before every text, and texts compare byte by byte (the BINARY
    collation). *)
Definition text_le (a b : option string) : Prop :=
  match a, b with
  | None, _ => True
  | Some _, None => False
  | Some x, Some y => String.le x y
  end.

#[global] Instance text_le_dec a b : Decision (text_le a b).
Proof. destruct a, b; simpl; apply _. Defined.

#[global] Instance text_le_trans : Transitive text_le.
Proof.
  intros [x|] [y|] [z|]; simpl; try done. apply (transitivity (R:=String.le)).
Qed.

#[global] Instance text_le_total : Total text_le.
Proof. intros [x|] [y|]; simpl; auto. apply (total String.le). Qed.

(** [ORDER BY created_at DESC] on clients.  SQL leaves the order among
    equal timestamps open; the model takes the one its merge sort gives. *)
Definition newest_first (a b : Clients.row) : Prop :=
  text_le (Clients.created_at b) (Clients.created_at a).

#[global] Instance newest_first_dec a b : Decision (newest_first a b).
Proof. unfold newest_first. apply _. Defined.

#[global] Instance newest_first_trans : Transitive newest_first.
Proof. intros a b c Hab Hbc. unfold newest_first in *. by etrans. Qed.

#[global] Instance newest_first_total : Total newest_first.
Proof. intros a b. unfold newest_first. apply (total text_le). Qed.

(** [SELECT * FROM clients ORDER BY created_at DESC] followed by
    [fetchall]. *)
Definition select_all_clients : db_op (list Clients.row) := λ s,
  (Return (merge_sort newest_first (clients s)), s).

Definition get_all_clients : db_op (list Clients.row) :=
  with_connection select_all_clients.

(** [reports]: [client_id], [title] and [report_type] are NOT NULL;
    [status] defaults to ['pending'] and the timestamps to
    [CURRENT_TIMESTAMP]. *)
Module Reports.
Record row : Type := mk {
  id : Z;
  client_id : Z;
  title : string;
  description : option string;
  report_type : string;
  status : option string;
  created_at : option string;
  updated_at : option string
}.
End Reports.

#[global] Instance reports_row_eq_dec : EqDecision Reports.row.
Proof. solve_decision. Defined.

(** The database file with its [reports] table.  The methods modelled on
    [db] run on the [main] part. *)
Record report_db : Type := mk_report_db {
  main : db;
  reports : list Reports.row;
  reports_seq : Z
}.

Definition report_op (A : Type) : Type := report_db → outcome A * report_db.

(** A method that touches the users and clients tables only. *)
Definition on_main {A} (op : db_op A) : report_op A := λ s,
  let (r, m) := op (main s) in
  (r, {| main := m; reports := reports s; reports_seq := reports_seq s |}).

(** [with self.get_connection() as conn: body] on the whole file. *)
Definition with_report_connection {A} (body : report_op A) : report_op A := λ s,
  match body s with
  | (Return a, s') => (Return a, s')
  | (Raise e, _) => (Raise e, s)
  end.

(** [INSERT INTO reports (client_id, title, description, report_type)
    VALUES (?, ?, ?, ?)]; the result is [cursor.lastrowid].  No
    connection turns [PRAGMA foreign_keys] on, so SQLite does not check
    the FOREIGN KEY clause of the table. *)
Definition insert_report (client_id : Z) (title : string)
    (description : option string) (report_type : string)
    (current_timestamp : string) : report_op Z := λ s,
  let rowid := next_rowid (reports_seq s) (Reports.id <$> reports s) in
  (Return rowid,
   {| main := main s;
      reports := reports s ++
        [Reports.mk rowid client_id title description report_type
           (Some "pending") (Some current_timestamp) (Some current_timestamp)];
      reports_seq := rowid |}).

(** [report_type] is ["general"] when the caller leaves it out. *)
Definition create_report (client_id : Z) (title : string)
    (description : option string) (report_type : string)
    (current_timestamp : string) : report_op Z :=
  with_report_connection
    (insert_report client_id title description report_type current_timestamp).

(** [FROM reports r JOIN clients c ON r.client_id = c.id], keeping
    [r.*] and [c.name as client_name]. *)
Definition join_client_name (cs : list Clients.row) (r : Reports.row)
  : list (Reports.row * string) :=
  (λ c, (r, Clients.name c))
    <$> filter (λ c, Clients.id c = Reports.client_id r) cs.

Definition reports_join_clients (rs : list Reports.row)
    (cs : list Clients.row) : list (Reports.row * string) :=
  rs ≫= join_client_name cs.

(** [ORDER BY r.created_at DESC]. *)
Definition latest_first (a b : Reports.row * string) : Prop :=
  text_le (Reports.created_at b.1) (Reports.created_at a.1).

#[global] Instance latest_first_dec a b : Decision (latest_first a b).
Proof. unfold latest_first. apply _. Defined.

#[global] Instance latest_first_trans : Transitive latest_first.
Proof. intros a b c Hab Hbc. unfold latest_first in *. by etrans. Qed.

#[global] Instance latest_first_total : Total latest_first.
Proof. intros a b. unfold latest_first. apply (total text_le). Qed.

(** A result row stands for the dictionary of the eight report columns
    and [client_name]. *)
Definition get_reports_by_client (client_id : Z)
  : report_op (list (Reports.row * string)) :=
  with_report_connection (λ s,
    (Return (merge_sort latest_first
               (filter (λ rc, Reports.client_id rc.1 = client_id)
                  (reports_join_clients (reports s) (clients (main s))))), s)).

Definition get_all_reports : report_op (list (Reports.row * string)) :=
  with_report_connection (λ s,
    (Return (merge_sort latest_first
               (reports_join_clients (reports s) (clients (main s)))), s)).

(** [SELECT col, COUNT( * ) ... GROUP BY col] over all values of a
    column, NULL included. *)
Definition count_groups {K} `{EqDecision K} (keys : list K) : list (K * nat) :=
  (λ k, (k, length (filter (λ x, x = k) keys))) <$> remove_dups keys.

(** [dict(pairs)] for keys of any kind ([None] is a key like another). *)
Fixpoint dict_store {K V} `{EqDecision K} (d : list (K * V)) (k : K) (v : V)
  : list (K * V) :=
  match d with
  | [] => [(k, v)]
  | (k', v') :: d' =>
      if decide (k' = k) then (k, v) :: d' else (k', v') :: dict_store d' k v
  end.

Definition dict_of {K V} `{EqDecision K} (pairs : list (K * V)) : list (K * V) :=
  foldl (λ d kv, dict_store d kv.1 kv.2) [] pairs.

(** The dictionary [get_report_stats] returns. *)
Record report_stats : Type := mk_report_stats {
  total_reports : nat;
  reports_by_status : list (option string * nat);
  reports_by_type : list (string * nat)
}.

Definition get_report_stats : report_op report_stats :=
  with_report_connection (λ s,
    (Return {| total_reports := length (reports s);
               reports_by_status :=
                 dict_of (count_groups (Reports.status <$> reports s));
               reports_by_type :=
                 dict_of (count_groups (Reports.report_type <$> reports s)) |},
     s)).

(** ** The rest of the credential manager *)

(** [SELECT id, username, is_admin, created_at FROM users WHERE
    username = ?] followed by [fetchone]; a value [None] is Python's
    [None]. *)
Definition get_user_by_username (username : string)
  : db_op (option (list (string * option pyval))) :=
  with_connection (
    row ← select_user_by_username username;
    match row with
    | Some r =>
        mret (Some [("id", Some (PyInt (Users.id r)));
                    ("username", Some (PyStr (Users.username r)));
                    ("is_admin", Some (PyBool (Users.is_admin r)));
                    ("created_at", PyStr <$> Users.created_at r)])
    | None => mret None
    end).

(** ** The first run ([main]) *)

(** [if not auth_manager.user_exists(): auth_manager.create_user(username,
    password, is_admin=True)]; the answers to the two prompts are
    arguments.  When the step raises, [main] reports the error and ends:
    the shell is not started. *)
Definition first_run (hashpw : string → string → option string)
    (username password salt current_timestamp : string) : db_op unit :=
  existing ← user_exists;
  if negb existing
  then _ ← create_user hashpw username password true salt current_timestamp;
       mret tt
  else mret tt.

(** ** The client menus of the shell ([MainMenu]) *)

(** Python's [v or d] on an optional string: [d] for [None] and for the
    empty string. *)
Definition or_default (v : option string) (d : string) : string :=
  match v with
  | Some s => if decide (s = "") then d else s
  | None => d
  end.

(** Python's [s or None]. *)
Definition or_None (s : string) : option string :=
  if decide (s = "") then None else Some s.

(** [try: body except Exception as e: ...]: the exception is reported,
    not raised. *)
Definition try_except {A} (body : db_op A) : db_op (A + exn) := λ s,
  match body s with
  | (Return a, s') => (Return (inl a), s')
  | (Raise e, s') => (Return (inr e), s')
  end.

(** [sqlite3] binds a Python [int] as a 64-bit INTEGER and raises
    [OverflowError] for one outside that range.  The ids the database
    hands out are in range; the answer to an [IntPrompt] need not be. *)
Definition bind_int (n : Z) : outcome unit :=
  if bool_decide (- 2 ^ 63 ≤ n < 2 ^ 63) then Return tt
  else Raise OverflowError.

(** [console.print(text)] with a string: [rich] reads it as console
    markup and raises [MarkupError] when it is none (a closing tag that
    closes nothing, say). *)
Definition console_print (markup : string → bool) (text : string)
  : outcome unit :=
  if markup text then Return tt else Raise MarkupError.

(** What [edit_client] reports. *)
Inductive edit_result : Type :=
| NotFound            (* "Cliente no encontrado" *)
| Updated             (* "Cliente actualizado exitosamente" *)
| NotUpdated          (* "Error al actualizar cliente" *)
| UpdateFailed (e : exn).

Module MainMenu.

(** The arguments are what the seven prompts return; the result is the
    new id (reported as a success) or the exception (reported as an
    error). *)
Definition add_client (name email phone company address city country : string)
    (current_timestamp : string) : db_op (Z + exn) :=
  try_except
    (create_client name email (or_None phone) (or_None company)
       (or_None address) (or_None city) (or_None country) current_timestamp).

(** [client_id] is what the id prompt returns, any integer, and [new_*]
    what the seven field prompts return once the client is found.  The
    lookup and the banner with the client's name come before the [try]:
    what they raise leaves the menu.  [markup] tells whether [rich] reads
    a text as console markup. *)
Definition edit_client (markup : string → bool) (client_id : Z)
    (new_name new_email new_phone new_company new_address new_city
       new_country : string) (now : string) : db_op edit_result :=
  _ ← call (bind_int client_id);
  client ← get_client client_id;
  match client with
  | None => mret NotFound
  | Some client =>
      _ ← call (console_print markup
                  (String.append "[green]Editando cliente: "
                     (String.append (Clients.name client) "[/green]")));
      r ← try_except
            (update_client client_id
               (<[col_name := Some new_name]>
                (<[col_email := Some new_email]>
                 (<[col_phone := or_None new_phone]>
                  (<[col_company := or_None new_company]>
                   (<[col_address := or_None new_address]>
                    (<[col_city := or_None new_city]>
                     (<[col_country := or_None new_country]> ∅)))))))
               now);
      mret match r with
           | inl true => Updated
           | inl false => NotUpdated
           | inr e => UpdateFailed e
           end
  end.

End MainMenu.

(** ** The PDF builders ([ReportGenerator]) *)

(** The flowables a builder hands to [doc.build]; table styles are left
    out. *)
Inductive flowable : Type :=
| Paragraph (text style : string)
| Spacer (width height : Z)
| Table (data : list (list cell)).

(** The rows of the table [generate_clients_list_pdf] draws. *)
Definition clients_list_table_data (clients : list Clients.row)
  : list (list cell) :=
  [CStr "ID"; CStr "Nombre"; CStr "Email"; CStr "Teléfono"; CStr "Empresa";
   CStr "Ciudad"]
  :: ((λ client,
         [CStr (pretty (Clients.id client));
          CStr (Clients.name client);
          CStr (or_default (Some (Clients.email client)) "N/A");
          CStr (or_default (Clients.phone client) "N/A");
          CStr (or_default (Clients.company client) "N/A");
          CStr (or_default (Clients.city client) "N/A")]) <$> clients).

(** The story of [generate_clients_list_pdf]; [generated_at] is
    [datetime.now().strftime('%d/%m/%Y a las %H:%M')]. *)
Definition generate_clients_list_pdf (clients : list Clients.row)
    (generated_at : string) : list flowable :=
  [Paragraph "Lista de Clientes" "CustomTitle";
   Spacer 1 12;
   Table (clients_list_table_data clients);
   Spacer 1 20;
   Paragraph (String.append "Total de clientes: " (pretty (length clients)))
     "Footer";
   Paragraph (String.append "Generado el " generated_at) "Footer"].

(** A row of [report_data] as the builder reads it. *)
Record report_field : Type := mk_report_field {
  field_name : string;
  field_value : option string
}.

(** The rows of the first table of [generate_client_report_pdf]. *)
Definition client_info (client_data : Clients.row) : list (list cell) :=
  [[CStr "Campo"; CStr "Valor"];
   [CStr "ID"; CStr (pretty (Clients.id client_data))];
   [CStr "Nombre"; CStr (Clients.name client_data)];
   [CStr "Email"; CStr (or_default (Some (Clients.email client_data)) "N/A")];
   [CStr "Teléfono"; CStr (or_default (Clients.phone client_data) "N/A")];
   [CStr "Empresa"; CStr (or_default (Clients.company client_data) "N/A")];
   [CStr "Dirección"; CStr (or_default (Clients.address client_data) "N/A")];
   [CStr "Ciudad"; CStr (or_default (Clients.city client_data) "N/A")];
   [CStr "País"; CStr (or_default (Clients.country client_data) "N/A")];
   [CStr "Fecha de registro"; text_cell (Clients.created_at client_data)]].

(** The rows of its second table. *)
Definition report_table_data (report_data : list report_field)
  : list (list cell) :=
  [CStr "Campo"; CStr "Valor"]
  :: ((λ data, [CStr (field_name data);
                CStr (or_default (field_value data) "N/A")]) <$> report_data).

(** The story of [generate_client_report_pdf]; [report_data] is [None]
    when the caller leaves it out. *)
Definition generate_client_report_pdf (client_data : Clients.row)
    (report_data : option (list report_field)) (generated_at : string)
  : list flowable :=
  [Paragraph "Reporte de Cliente" "CustomTitle";
   Spacer 1 12;
   Table (client_info client_data);
   Spacer 1 20]
  ++ match report_data with
     | Some (d :: ds) =>
         [Paragraph "Datos del Reporte" "Heading2";
          Spacer 1 12;
          Table (report_table_data (d :: ds))]
     | _ => []
     end
  ++ [Spacer 1 20;
      Paragraph (String.append "Generado el " generated_at) "Footer"].

(** The name of the file [generate_client_report_pdf] writes;
    [timestamp] is [datetime.now().strftime("%Y%m%d_%H%M%S")]. *)
Definition client_report_filename (client_data : Clients.row)
    (timestamp : string) : string :=
  String.append "cliente_"
    (String.append (pretty (Clients.id client_data))
       (String.append "_" (String.append timestamp ".pdf"))).

(** ** The databases the program reaches *)

(** One call of a method that writes to the users or clients table. *)
Inductive step (hashpw : string → string → option string)
    (checkpw : string → string → bool) : db → db → Prop :=
| step_create_client name email phone company address city country ts s r s' :
    create_client name email phone company address city country ts s = (r, s') →
    step hashpw checkpw s s'
| step_update_client client_id kwargs now s r s' :
    update_client client_id kwargs now s = (r, s') →
    step hashpw checkpw s s'
| step_delete_client client_id s r s' :
    delete_client client_id s = (r, s') →
    step hashpw checkpw s s'
| step_create_user username password is_admin salt ts s r s' :
    create_user hashpw username password is_admin salt ts s = (r, s') →
    step hashpw checkpw s s'
| step_change_password user_id old_password new_password salt s r s' :
    change_password hashpw checkpw user_id old_password new_password salt s
      = (r, s') →
    step hashpw checkpw s s'.

(** What a run of the program can make of a fresh database. *)
Definition reachable (hashpw : string → string → option string)
    (checkpw : string → string → bool) (s : db) : Prop :=
  rtc (step hashpw checkpw) empty_db s.

(** No optional field of the row holds the empty string. *)
Definition no_blank (r : Clients.row) : Prop :=
  Clients.phone r ≠ Some "" ∧ Clients.company r ≠ Some "" ∧
  Clients.address r ≠ Some "" ∧ Clients.city r ≠ Some "" ∧
  Clients.country r ≠ Some "".

(** ** Databases and helpers the statements below are run on *)

(** The value a row holds under a keyword of [update_client]. *)
Definition column_value (col : column) (r : Clients.row) : option string :=
  match col with
  | col_name => Some (Clients.name r)
  | col_email => Some (Clients.email r)
  | col_phone => Clients.phone r
  | col_company => Clients.company r
  | col_address => Clients.address r
  | col_city => Clients.city r
  | col_country => Clients.country r
  | col_updated_at => Clients.updated_at r
  end.

(** A stand-in for [bcrypt] to run the credential manager on examples:
    the hash is the four-character salt, a separator and the password,
    and, as [bcrypt.hashpw] does, it refuses a password over 72 bytes;
    checking hashes the candidate under the salt the stored hash starts
    with and compares.  Nothing is proved from its shape. *)
Definition example_digest (password salt : string) : string :=
  String.append salt (String.append "$" password).

Definition example_hashpw (password salt : string) : option string :=
  if bool_decide (72 < String.length password)%nat then None
  else Some (example_digest password salt).

Definition example_checkpw (password hashed : string) : bool :=
  String.eqb (example_digest password (substring 0 4 hashed)) hashed.

(** A password of 73 bytes. *)
Definition long_password : string :=
  "aaaaaaaaaaaaaaaaaaaaaaaaaaaaaaaaaaaaaaaaaaaaaaaaaaaaaaaaaaaaaaaaaaaaaaaaa".

(** A stand-in for [rich]'s markup parser: it refuses a text with more
    closing tags than opening ones, as [rich] does. *)
Fixpoint closing_tags (text : string) : nat :=
  match text with
  | String "["%char (String "/"%char _ as rest) => S (closing_tags rest)
  | String _ rest => closing_tags rest
  | EmptyString => 0
  end.

Fixpoint opening_tags (text : string) : nat :=
  match text with
  | String "["%char (String c _ as rest) =>
      if Ascii.eqb c "/"%char then opening_tags rest else S (opening_tags rest)
  | String _ rest => opening_tags rest
  | EmptyString => 0
  end.

Definition example_markup (text : string) : bool :=
  bool_decide (closing_tags text ≤ opening_tags text)%nat.

Definition ana : Clients.row :=
  Clients.mk 1 "Ana Gomez" "ana@x.com" None None None (Some "Lima") None
    (Some "2024-01-01 10:00:00") (Some "2024-01-01 10:00:00").

Definition bob : Clients.row :=
  Clients.mk 2 "Bob Diaz" "bob@x.com" (Some "555-0101") (Some "Acme") None
    (Some "Quito") (Some "Ecuador")
    (Some "2024-01-02 11:30:00") (Some "2024-01-02 11:30:00").

Definition root : Users.row :=
  Users.mk 1 "root" (example_digest "secret" "s4lt") true
    (Some "2024-01-01 09:00:00").

(** One administrator and two clients. *)
Definition example_db : db :=
  {| users := [root]; users_seq := 1; clients := [ana; bob]; clients_seq := 2 |}.

(** Two reports for Bob and one that names a client id nobody has. *)
Definition example_reports : list Reports.row :=
  [Reports.mk 1 2 "Q1 review" None "general" (Some "pending")
     (Some "2024-02-01 09:00:00") (Some "2024-02-01 09:00:00");
   Reports.mk 2 2 "Q2 review" (Some "mid-year") "general" (Some "pending")
     (Some "2024-05-01 09:00:00") (Some "2024-05-01 09:00:00");
   Reports.mk 3 9 "Orphan" None "audit" (Some "pending")
     (Some "2024-03-01 09:00:00") (Some "2024-03-01 09:00:00")].

Definition example_report_db : report_db :=
  {| main := example_db; reports := example_reports; reports_seq := 3 |}.

(** * Properties *)

(** ** What the schema keeps true *)

(** The PRIMARY KEY and UNIQUE constraints of the two tables. *)
Record wf_db (s : db) : Prop := mk_wf_db {
  wf_client_ids : NoDup (Clients.id <$> clients s);
  wf_client_emails : NoDup (Clients.email <$> clients s);
  wf_user_ids : NoDup (Users.id <$> users s);
  wf_usernames : NoDup (Users.username <$> users s)
}.

Lemma wf_empty_db : wf_db empty_db.
Proof. split; simpl; constructor. Qed.

Section list_facts.
Context {A K : Type} `{EqDecision K} (key : A → K).

(** In a table with a unique key, the key decides the row. *)
Lemma NoDup_key_eq (l : list A) (x y : A) :
  NoDup (key <$> l) → x ∈ l → y ∈ l → key x = key y → x = y.
Proof.
  induction l as [|a l IH]; intros Hnd Hx Hy Hk; [by inv Hx|].
  rewrite fmap_cons, NoDup_cons in Hnd. destruct Hnd as [Ha Hnd].
  inv Hx; inv Hy; auto.
  - exfalso. apply Ha. rewrite Hk. by apply list_elem_of_fmap_2.
  - exfalso. apply Ha. rewrite <- Hk. by apply list_elem_of_fmap_2.
Qed.

(** [WHERE key = ?] then [fetchone] finds that row. *)
Lemma find_key (l : list A) (x : A) :
  NoDup (key <$> l) → x ∈ l →
  find (λ r, bool_decide (key r = key x)) l = Some x.
Proof.
  induction l as [|a l IH]; intros Hnd Hx; [by inv Hx|].
  simpl. case_bool_decide as Hk.
  - f_equal. apply (NoDup_key_eq (a :: l)); [done | left | done | done].
  - rewrite fmap_cons, NoDup_cons in Hnd. destruct Hnd as [_ Hnd].
    inv Hx. by apply IH.
Qed.

Lemma find_key_None (l : list A) (k : K) :
  (∀ r, r ∈ l → key r ≠ k) → find (λ r, bool_decide (key r = k)) l = None.
Proof.
  induction l as [|a l IH]; intros H; [done|]. simpl.
  rewrite bool_decide_eq_false_2 by (apply H; left).
  apply IH. intros r Hr. apply H. by right.
Qed.

Lemma find_key_app_fresh (l : list A) (x : A) :
  (∀ r, r ∈ l → key r ≠ key x) →
  find (λ r, bool_decide (key r = key x)) (l ++ [x]) = Some x.
Proof.
  induction l as [|a l IH]; intros H; simpl.
  - by rewrite bool_decide_eq_true_2.
  - rewrite bool_decide_eq_false_2 by (apply H; left).
    apply IH. intros r Hr. apply H. by right.
Qed.
End list_facts.

Lemma max_rowid_ge (ids : list Z) (i : Z) : i ∈ ids → i ≤ max_rowid ids.
Proof.
  induction ids as [|a ids IH]; intros Hi; [by inv Hi|].
  unfold max_rowid in *. simpl. inv Hi; [lia|]. specialize (IH H1). lia.
Qed.

(** AUTOINCREMENT never reuses a rowid of the table. *)
Lemma next_rowid_fresh (seq : Z) (ids : list Z) : next_rowid seq ids ∉ ids.
Proof.
  intros H%max_rowid_ge. unfold next_rowid in H. lia.
Qed.

Lemma next_rowid_gt_seq (seq : Z) (ids : list Z) : seq < next_rowid seq ids.
Proof. unfold next_rowid. lia. Qed.

(** ** [create_client] and [get_client] *)

(** What [create_client] does, case by case. *)
Lemma create_client_eq name email phone company address city country ts s :
  create_client name email phone company address city country ts s =
    if bool_decide (email ∈ Clients.email <$> clients s)
    then (Raise IntegrityError, s)
    else
      let rowid := next_rowid (clients_seq s) (Clients.id <$> clients s) in
      (Return rowid,
       {| users := users s; users_seq := users_seq s;
          clients := clients s ++
            [Clients.mk rowid name email phone company address city country
               (Some ts) (Some ts)];
          clients_seq := rowid |}).
Proof.
  unfold create_client, with_connection, mbind, db_op_bind, insert_client.
  by case_bool_decide.
Qed.

Lemma get_client_eq client_id s :
  get_client client_id s =
    (Return (find (λ r, bool_decide (Clients.id r = client_id)) (clients s)), s).
Proof. done. Qed.

(** C1. For a name, an email no client holds yet and any choice of the
    optional fields, [create_client] returns an id under which
    [get_client] then finds a record that carries every supplied value
    (and NULL where none was supplied) and whose [created_at] equals its
    [updated_at]. *)
Theorem create_client_then_get_client
    (name email : string) (phone company address city country : option string)
    (ts : string) (s : db) :
  email ∉ Clients.email <$> clients s →
  ∃ client_id s' r,
    create_client name email phone company address city country ts s
      = (Return client_id, s') ∧
    get_client client_id s' = (Return (Some r), s') ∧
    Clients.id r = client_id ∧
    Clients.name r = name ∧ Clients.email r = email ∧
    Clients.phone r = phone ∧ Clients.company r = company ∧
    Clients.address r = address ∧ Clients.city r = city ∧
    Clients.country r = country ∧
    Clients.created_at r = Clients.updated_at r.
Proof.
  intros Hfresh. rewrite create_client_eq.
  rewrite bool_decide_eq_false_2 by done. cbv zeta.
  set (rowid := next_rowid _ _).
  set (r := Clients.mk rowid name email phone company address city country
              (Some ts) (Some ts)).
  eexists rowid, _, r. split; [reflexivity|].
  split; [|by repeat split].
  rewrite get_client_eq. simpl. f_equal. f_equal.
  apply (find_key_app_fresh Clients.id (clients s) r).
  intros o Ho Heq. apply (next_rowid_fresh (clients_seq s) (Clients.id <$> clients s)).
  fold rowid. change rowid with (Clients.id r). rewrite <- Heq.
  by apply list_elem_of_fmap_2.
Qed.

Lemma create_client_then_get_client_witness :
  ∃ client_id s' r,
    create_client "Ana Gomez" "ana@x.com" None None None (Some "Lima") None
      "2024-01-01 10:00:00" empty_db = (Return client_id, s') ∧
    get_client client_id s' = (Return (Some r), s') ∧
    Clients.id r = client_id ∧
    Clients.name r = "Ana Gomez" ∧ Clients.email r = "ana@x.com" ∧
    Clients.phone r = None ∧ Clients.company r = None ∧
    Clients.address r = None ∧ Clients.city r = Some "Lima" ∧
    Clients.country r = None ∧
    Clients.created_at r = Clients.updated_at r.
Proof.
  apply (create_client_then_get_client "Ana Gomez" "ana@x.com" None None None
           (Some "Lima") None "2024-01-01 10:00:00" empty_db).
  simpl. apply not_elem_of_nil.
Defined.

(** C3. When a client already holds the email, [create_client] raises
    [IntegrityError] and the database is left as it was; the first client
    is still what [get_client] returns under its id. *)
Theorem create_client_duplicate_email
    (c : Clients.row) (name : string)
    (phone company address city country : option string) (ts : string)
    (s : db) :
  wf_db s → c ∈ clients s →
  create_client name (Clients.email c) phone company address city country ts s
    = (Raise IntegrityError, s) ∧
  get_client (Clients.id c) s = (Return (Some c), s).
Proof.
  intros Hwf Hc. split.
  - rewrite create_client_eq, bool_decide_eq_true_2; [done|].
    by apply list_elem_of_fmap_2.
  - rewrite get_client_eq. f_equal. f_equal.
    apply (find_key Clients.id); [apply Hwf | done].
Qed.

(** ** [delete_client] *)

Lemma filter_nonempty {A} (f : A → bool) (l : list A) :
  (0 < length (List.filter f l))%nat ↔ ∃ x, x ∈ l ∧ f x = true.
Proof.
  induction l as [|a l IH]; simpl.
  - split; [lia | intros (x & Hx & _); by inv Hx].
  - destruct (f a) eqn:Ha; simpl.
    + split; [intros _; exists a; split; [left | done] | lia].
    + rewrite IH. split.
      * intros (x & Hx & Hfx). exists x. split; [by right | done].
      * intros (x & Hx & Hfx). inv Hx; [congruence|]. by exists x.
Qed.

Lemma elem_of_List_filter {A} (f : A → bool) (l : list A) (x : A) :
  x ∈ List.filter f l ↔ x ∈ l ∧ f x = true.
Proof. rewrite !list_elem_of_In. apply filter_In. Qed.

Lemma filter_negb_then {A} (f : A → bool) (l : list A) :
  List.filter f (List.filter (λ x, negb (f x)) l) = [].
Proof.
  induction l as [|a l IH]; [done|]. simpl.
  destruct (f a) eqn:Ha; simpl; [done|]. by rewrite Ha.
Qed.

Lemma filter_negb_idemp {A} (f : A → bool) (l : list A) :
  List.filter (λ x, negb (f x)) (List.filter (λ x, negb (f x)) l)
  = List.filter (λ x, negb (f x)) l.
Proof.
  induction l as [|a l IH]; [done|]. simpl.
  destruct (f a) eqn:Ha; simpl; [done|]. rewrite Ha. simpl. by f_equal.
Qed.

Lemma delete_client_eq client_id s :
  delete_client client_id s =
    let hit r := bool_decide (Clients.id r = client_id) in
    (Return (bool_decide (0 < length (List.filter hit (clients s)))%nat),
     {| users := users s; users_seq := users_seq s;
        clients := List.filter (λ r, negb (hit r)) (clients s);
        clients_seq := clients_seq s |}).
Proof. done. Qed.

(** C8. [delete_client] returns true exactly when a row with that id was
    there; afterwards the rows left are those with another id, so
    [get_client] on the id returns [None] and a second [delete_client] on
    it returns false and changes nothing. *)
Theorem delete_client_spec (client_id : Z) (s : db) :
  ∃ removed s',
    delete_client client_id s = (Return removed, s') ∧
    (removed = true ↔ ∃ r, r ∈ clients s ∧ Clients.id r = client_id) ∧
    (∀ r, r ∈ clients s' ↔ r ∈ clients s ∧ Clients.id r ≠ client_id) ∧
    users s' = users s ∧
    get_client client_id s' = (Return None, s') ∧
    delete_client client_id s' = (Return false, s').
Proof.
  rewrite delete_client_eq. cbv zeta.
  set (hit := λ r, bool_decide (Clients.id r = client_id)).
  eexists _, _. split; [reflexivity|].
  assert (Hrest : ∀ r, r ∈ List.filter (λ r, negb (hit r)) (clients s)
                       ↔ r ∈ clients s ∧ Clients.id r ≠ client_id).
  { intros r. rewrite elem_of_List_filter. unfold hit.
    rewrite negb_true_iff, bool_decide_eq_false. done. }
  split; [|split; [|split; [|split]]].
  - rewrite bool_decide_eq_true, filter_nonempty. unfold hit.
    split; intros (r & Hr & Hid); exists r; split; auto.
    + by apply bool_decide_eq_true in Hid.
    + by apply bool_decide_eq_true.
  - exact Hrest.
  - done.
  - rewrite get_client_eq. simpl. f_equal. f_equal.
    apply find_key_None. intros r Hr. by apply Hrest in Hr as [_ ?].
  - rewrite delete_client_eq. cbv zeta. simpl. fold hit.
    by rewrite filter_negb_then, filter_negb_idemp.
Qed.

(** ** [update_client] *)

(** [assign] succeeds unless it would store NULL in [name] or [email];
    the row it gives holds the bound value under every named column and
    the old value under the others. *)
Lemma assign_Some (kwargs : gmap column (option string)) (r : Clients.row) :
  kwargs !! col_name ≠ Some None → kwargs !! col_email ≠ Some None →
  ∃ r', assign kwargs r = Some r' ∧
        Clients.id r' = Clients.id r ∧
        Clients.created_at r' = Clients.created_at r ∧
        ∀ col, column_value col r' = default (column_value col r) (kwargs !! col).
Proof.
  intros Hn He. unfold assign.
  destruct (kwargs !! col_name) as [[n|]|] eqn:En; [| done |];
    destruct (kwargs !! col_email) as [[e|]|] eqn:Ee; try done; simpl;
    (eexists; split; [reflexivity|]; split; [done|]; split; [done|]);
    intros []; simpl; by rewrite ?En, ?Ee.
Qed.

Lemma assign_None (kwargs : gmap column (option string)) (r : Clients.row) :
  kwargs !! col_name = Some None ∨ kwargs !! col_email = Some None →
  assign kwargs r = None.
Proof.
  unfold assign. intros [-> | ->]; simpl; [done|].
  by destruct (default _ _).
Qed.

(** The rows of a one-row update. *)
Lemma mapM_assign (kwargs : gmap column (option string)) (client_id : Z)
    (rows : list Clients.row) (c' : Clients.row) :
  (∀ r, r ∈ rows → Clients.id r = client_id → assign kwargs r = Some c') →
  mapM (λ r, if bool_decide (Clients.id r = client_id)
             then assign kwargs r else Some r) rows
  = Some ((λ r, if bool_decide (Clients.id r = client_id) then c' else r)
            <$> rows).
Proof.
  intros H. apply mapM_Some_2. induction rows as [|a rows IH]; [constructor|].
  rewrite fmap_cons. constructor.
  - case_bool_decide; [apply H; [left | done] | done].
  - apply IH. intros r Hr. apply H. by right.
Qed.

Lemma email_taken_by_other_false (e : string) (client_id : Z)
    (rows : list Clients.row) :
  (∀ o, o ∈ rows → Clients.id o ≠ client_id → Clients.email o ≠ e) →
  email_taken_by_other e client_id rows = false.
Proof.
  intros H. unfold email_taken_by_other.
  apply not_true_is_false. intros (o & Ho & Hb)%existsb_exists.
  apply andb_true_iff in Hb as [H1%bool_decide_eq_true H2%bool_decide_eq_true].
  apply list_elem_of_In in Ho. by eapply H.
Qed.

Lemma email_taken_by_other_true (e : string) (client_id : Z)
    (rows : list Clients.row) (o : Clients.row) :
  o ∈ rows → Clients.id o ≠ client_id → Clients.email o = e →
  email_taken_by_other e client_id rows = true.
Proof.
  intros Ho Hid He. apply existsb_exists. exists o.
  split; [by apply list_elem_of_In|].
  by rewrite !bool_decide_eq_true_2.
Qed.

Lemma fmap_no_hit {A} (hit : A → bool) (g : A → A) (l : list A) :
  (∀ r, r ∈ l → hit r = false) → (λ r, if hit r then g r else r) <$> l = l.
Proof.
  induction l as [|a l IH]; intros H; [done|].
  rewrite fmap_cons, (H a) by left. f_equal. apply IH.
  intros r Hr. apply H. by right.
Qed.

Lemma db_eta (s : db) :
  {| users := users s; users_seq := users_seq s;
     clients := clients s; clients_seq := clients_seq s |} = s.
Proof. by destruct s. Qed.

(** What [update_client] does on a non-empty set of keywords once the
    [updated_at] stamp is in. *)
Lemma update_client_nonempty client_id
    (kwargs : gmap column (option string)) now s :
  kwargs ≠ ∅ →
  update_client client_id kwargs now s =
    match update_clients (<[col_updated_at := Some now]> kwargs) client_id s with
    | (Return rowcount, s') => (Return (bool_decide (0 < rowcount)%nat), s')
    | (Raise e, _) => (Raise e, s)
    end.
Proof.
  intros Hne. unfold update_client.
  rewrite bool_decide_eq_false_2 by done.
  unfold with_connection, mbind, db_op_bind, commit, mret, db_op_ret.
  by destruct (update_clients _ _ _) as [[]].
Qed.

Section update_client_cases.
Context (client_id : Z) (kwargs : gmap column (option string))
        (now : string) (s : db).

Lemma update_client_empty :
  kwargs = ∅ → update_client client_id kwargs now s = (Return false, s).
Proof. intros ->. unfold update_client. by rewrite bool_decide_eq_true_2. Qed.

Lemma update_client_no_row :
  (∀ r, r ∈ clients s → Clients.id r ≠ client_id) →
  update_client client_id kwargs now s = (Return false, s).
Proof.
  intros Hnone. destruct (decide (kwargs = ∅)) as [He|Hne].
  { by apply update_client_empty. }
  rewrite update_client_nonempty by done. unfold update_clients.
  set (kw := <[col_updated_at := Some now]> kwargs).
  rewrite (mapM_assign kw client_id (clients s)
             (Clients.mk 0 "" "" None None None None None None None))
    by (intros r Hr Hid; by apply Hnone in Hr).
  assert (Hcount : List.filter (λ r, bool_decide (Clients.id r = client_id))
                     (clients s) = []).
  { destruct (List.filter _ _) as [|x l] eqn:Hf; [done|].
    assert (Hx : x ∈ List.filter
                   (λ r, bool_decide (Clients.id r = client_id)) (clients s))
      by (rewrite Hf; left).
    apply elem_of_List_filter in Hx as [Hx Hid%bool_decide_eq_true].
    by apply Hnone in Hx. }
  rewrite Hcount. simpl.
  rewrite fmap_no_hit, db_eta; [done|].
  intros r Hr. apply bool_decide_eq_false_2. by apply Hnone.
Qed.

Lemma update_client_hit (c : Clients.row) :
  wf_db s → c ∈ clients s → Clients.id c = client_id → kwargs ≠ ∅ →
  kwargs !! col_name ≠ Some None → kwargs !! col_email ≠ Some None →
  (∀ e o, kwargs !! col_email = Some (Some e) → o ∈ clients s →
          Clients.id o ≠ client_id → Clients.email o ≠ e) →
  ∃ c',
    update_client client_id kwargs now s
      = (Return true,
         {| users := users s; users_seq := users_seq s;
            clients := (λ r, if bool_decide (Clients.id r = client_id)
                             then c' else r) <$> clients s;
            clients_seq := clients_seq s |}) ∧
    Clients.id c' = client_id ∧
    Clients.created_at c' = Clients.created_at c ∧
    Clients.updated_at c' = Some now ∧
    (∀ col, col ≠ col_updated_at →
            column_value col c' = default (column_value col c) (kwargs !! col)).
Proof.
  intros Hwf Hc Hid Hne Hname Hemail Hfree.
  rewrite update_client_nonempty by done. unfold update_clients.
  set (kw := <[col_updated_at := Some now]> kwargs).
  assert (Hkw : ∀ col, col ≠ col_updated_at → kw !! col = kwargs !! col).
  { intros col Hcol. unfold kw. by rewrite lookup_insert_ne. }
  destruct (assign_Some kw c) as (c' & Hc' & Hid' & Hcr & Hcols).
  { by rewrite Hkw. }
  { by rewrite Hkw. }
  exists c'.
  rewrite (mapM_assign kw client_id (clients s) c').
  2:{ intros r Hr Hrid.
      assert (r = c) as ->; [|done].
      apply (NoDup_key_eq Clients.id (clients s)); [apply Hwf|done|done|congruence]. }
  assert (Hhit : (0 < length (List.filter
                    (λ r, bool_decide (Clients.id r = client_id)) (clients s)))%nat).
  { apply filter_nonempty. exists c. split; [done|]. by apply bool_decide_eq_true. }
  rewrite (bool_decide_eq_true_2 _ Hhit). simpl.
  assert (Hfree' : match kw !! col_email with
                   | Some (Some e) => email_taken_by_other e client_id (clients s)
                   | _ => false
                   end = false).
  { rewrite Hkw by done. destruct (kwargs !! col_email) as [[e|]|] eqn:Ee; try done.
    apply email_taken_by_other_false. intros o Ho Hoid. by eapply Hfree. }
  rewrite Hfree'. rewrite ?(bool_decide_eq_true_2 _ Hhit).
  split; [done|]. split; [congruence|]. split; [done|]. split.
  - specialize (Hcols col_updated_at). simpl in Hcols. rewrite Hcols.
    unfold kw. by rewrite lookup_insert_eq.
  - intros col Hcol. by rewrite Hcols, Hkw.
Qed.

Lemma update_client_violation (c : Clients.row) :
  c ∈ clients s → Clients.id c = client_id → kwargs ≠ ∅ →
  (kwargs !! col_name = Some None ∨ kwargs !! col_email = Some None ∨
   ∃ e o, kwargs !! col_email = Some (Some e) ∧ o ∈ clients s ∧
          Clients.id o ≠ client_id ∧ Clients.email o = e) →
  update_client client_id kwargs now s = (Raise IntegrityError, s).
Proof.
  intros Hc Hid Hne Hbad.
  rewrite update_client_nonempty by done. unfold update_clients.
  set (kw := <[col_updated_at := Some now]> kwargs).
  assert (Hkw : ∀ col, col ≠ col_updated_at → kw !! col = kwargs !! col).
  { intros col Hcol. unfold kw. by rewrite lookup_insert_ne. }
  assert (Hhit : (0 < length (List.filter
                    (λ r, bool_decide (Clients.id r = client_id)) (clients s)))%nat).
  { apply filter_nonempty. exists c. split; [done|]. by apply bool_decide_eq_true. }
  destruct (mapM _ (clients s)) as [rows'|] eqn:Hrows; [|done].
  rewrite (bool_decide_eq_true_2 _ Hhit). simpl.
  destruct Hbad as [Hnull | [Hnull | (e & o & He & Ho & Hoid & Hoe)]].
  - exfalso. apply mapM_Some_1 in Hrows.
    apply list_elem_of_lookup in Hc as [i Hi].
    destruct (Forall2_lookup_l _ _ _ _ _ Hrows Hi) as (y & _ & Hy).
    rewrite bool_decide_eq_true_2 in Hy by done.
    rewrite assign_None in Hy; [done|]. left. by rewrite Hkw.
  - exfalso. apply mapM_Some_1 in Hrows.
    apply list_elem_of_lookup in Hc as [i Hi].
    destruct (Forall2_lookup_l _ _ _ _ _ Hrows Hi) as (y & _ & Hy).
    rewrite bool_decide_eq_true_2 in Hy by done.
    rewrite assign_None in Hy; [done|]. right. by rewrite Hkw.
  - rewrite Hkw, He by done.
    by rewrite (email_taken_by_other_true e client_id (clients s) o).
Qed.

End update_client_cases.

(** C2 (as amended). With no keyword, or with an id no row has,
    [update_client] returns false and the database is left as it was.
    With the id of a row [c] and at least one keyword, provided no keyword
    binds NULL to [name] or [email] and no other row holds the new email,
    it returns true; the row then holds the bound value under every named
    column, [now] under [updated_at] and its old value everywhere else,
    and every other row, the users and the counters are as before.  When a
    keyword does bind NULL to [name] or [email], or another row holds the
    new email, it raises [IntegrityError] and the database is left as it
    was. *)
Theorem update_client_spec (client_id : Z)
    (kwargs : gmap column (option string)) (now : string) (s : db) :
  wf_db s →
  (kwargs = ∅ → update_client client_id kwargs now s = (Return false, s)) ∧
  ((∀ r, r ∈ clients s → Clients.id r ≠ client_id) →
     update_client client_id kwargs now s = (Return false, s)) ∧
  (∀ c, c ∈ clients s → Clients.id c = client_id → kwargs ≠ ∅ →
     kwargs !! col_name ≠ Some None → kwargs !! col_email ≠ Some None →
     (∀ e o, kwargs !! col_email = Some (Some e) → o ∈ clients s →
             Clients.id o ≠ client_id → Clients.email o ≠ e) →
     ∃ c',
       update_client client_id kwargs now s
         = (Return true,
            {| users := users s; users_seq := users_seq s;
               clients := (λ r, if bool_decide (Clients.id r = client_id)
                                then c' else r) <$> clients s;
               clients_seq := clients_seq s |}) ∧
       Clients.id c' = client_id ∧
       Clients.created_at c' = Clients.created_at c ∧
       Clients.updated_at c' = Some now ∧
       (∀ col, col ≠ col_updated_at →
               column_value col c'
               = default (column_value col c) (kwargs !! col))) ∧
  (∀ c, c ∈ clients s → Clients.id c = client_id → kwargs ≠ ∅ →
     (kwargs !! col_name = Some None ∨ kwargs !! col_email = Some None ∨
      ∃ e o, kwargs !! col_email = Some (Some e) ∧ o ∈ clients s ∧
             Clients.id o ≠ client_id ∧ Clients.email o = e) →
     update_client client_id kwargs now s = (Raise IntegrityError, s)).
Proof.
  intros Hwf. split; [|split; [|split]].
  - apply update_client_empty.
  - apply update_client_no_row.
  - intros c. by apply update_client_hit.
  - intros c. apply update_client_violation.
Qed.

(** ** [get_client_stats] *)

Lemma dict_set_fresh {V} (d : list (string * V)) (k : string) (v : V) :
  k ∉ d.*1 → dict_set d k v = d ++ [(k, v)].
Proof.
  induction d as [|[k' v'] d IH]; intros Hk; [done|]. simpl.
  rewrite fmap_cons, not_elem_of_cons in Hk. destruct Hk as [Hne Hk].
  rewrite decide_False by done. by rewrite IH.
Qed.

Lemma foldl_dict_set_NoDup {V} (pairs acc : list (string * V)) :
  NoDup ((acc ++ pairs).*1) →
  foldl (λ d kv, dict_set d kv.1 kv.2) acc pairs = acc ++ pairs.
Proof.
  revert acc. induction pairs as [|[k v] pairs IH]; intros acc Hnd; simpl.
  - by rewrite app_nil_r.
  - rewrite dict_set_fresh.
    + rewrite IH; rewrite <- app_assoc; [done|]. exact Hnd.
    + rewrite fmap_app, fmap_cons in Hnd.
      apply NoDup_app in Hnd as (_ & Hdisj & _).
      intros Hin. apply (Hdisj k Hin). left.
Qed.

(** Rows that come out of a GROUP BY have distinct keys; [dict] keeps
    them all, in their order. *)
Lemma dict_NoDup {V} (pairs : list (string * V)) :
  NoDup pairs.*1 → dict pairs = pairs.
Proof. intros H. unfold dict. by rewrite foldl_dict_set_NoDup. Qed.

Lemma group_by_count_keys (keys : list string) :
  (group_by_count keys).*1 = remove_dups keys.
Proof.
  unfold group_by_count. rewrite <- list_fmap_compose.
  induction (remove_dups keys) as [|k l IH]; [done|].
  rewrite fmap_cons. simpl. by f_equal.
Qed.

Lemma elem_of_group_by_count (keys : list string) (k : string) (n : nat) :
  (k, n) ∈ group_by_count keys ↔ k ∈ keys ∧ n = group_size k keys.
Proof.
  unfold group_by_count. rewrite list_elem_of_fmap. split.
  - intros (k' & Heq & Hk). simplify_eq.
    split; [by apply elem_of_remove_dups | done].
  - intros [Hk ->]. exists k. by rewrite elem_of_remove_dups.
Qed.

Lemma group_size_pos (keys : list string) (k : string) :
  k ∈ keys → (0 < group_size k keys)%nat.
Proof.
  intros Hk. unfold group_size.
  assert (Hin : k ∈ filter (λ x, x = k) keys) by (by apply list_elem_of_filter).
  destruct (filter _ keys); [by inv Hin | simpl; lia].
Qed.

(** The size of a group is the number of rows that hold its key. *)
Lemma group_size_omap {A} (f : A → option string) (l : list A) (k : string) :
  group_size k (omap f l) = length (filter (λ r, f r = Some k) l).
Proof.
  unfold group_size. induction l as [|a l IH]; [done|]. simpl.
  rewrite (filter_cons (λ r, f r = Some k)).
  destruct (f a) as [x|] eqn:Hfa.
  - rewrite filter_cons. destruct (decide (x = k)) as [->|Hne].
    + rewrite decide_True by done. simpl. f_equal. exact IH.
    + rewrite decide_False by congruence. exact IH.
  - rewrite decide_False by done. exact IH.
Qed.

Lemma length_omap_not_None {A B} (f : A → option B) (l : list A) :
  length (omap f l) = length (filter (λ r, f r ≠ None) l).
Proof.
  induction l as [|a l IH]; [done|]. simpl.
  rewrite filter_cons. destruct (f a) eqn:Ha.
  - rewrite decide_True by done. simpl. f_equal. exact IH.
  - rewrite decide_False by (intros H; by apply H). exact IH.
Qed.

Lemma sum_group_size_one (ks : list string) (x : string) :
  NoDup ks → x ∈ ks →
  sum_list ((λ k, if decide (x = k) then 1 else 0)%nat <$> ks) = 1%nat.
Proof.
  induction 1 as [|k ks Hk Hnd IH]; intros Hx; [by inv Hx|].
  rewrite fmap_cons. simpl. destruct (decide (x = k)) as [->|Hne].
  - rewrite (sum_list_fmap_same 0); [lia|].
    apply Forall_forall. intros y Hy. rewrite decide_False; [done|].
    intros ->. done.
  - rewrite IH; [done|]. by inv Hx.
Qed.

Lemma sum_list_fmap_plus {A} (f g : A → nat) (l : list A) :
  sum_list ((λ x, f x + g x)%nat <$> l)
  = (sum_list (f <$> l) + sum_list (g <$> l))%nat.
Proof.
  induction l as [|a l IH]; [done|].
  rewrite !fmap_cons. cbn [sum_list_with]. rewrite IH. unfold id. lia.
Qed.

Lemma sum_group_sizes (ks keys : list string) :
  NoDup ks → (∀ x, x ∈ keys → x ∈ ks) →
  sum_list ((λ k, group_size k keys) <$> ks) = length keys.
Proof.
  intros Hnd. induction keys as [|x keys IH]; intros Hsub.
  - rewrite (sum_list_fmap_same 0); [simpl; lia|]. by apply Forall_forall.
  - transitivity
      (sum_list ((λ k, (if decide (x = k) then 1 else 0)
                        + group_size k keys)%nat <$> ks)).
    { f_equal. apply list_fmap_ext. intros _ k _. unfold group_size.
      rewrite filter_cons. by destruct (decide (x = k)). }
    rewrite sum_list_fmap_plus, sum_group_size_one, IH; simpl; auto.
    + intros y Hy. apply Hsub. by right.
    + apply Hsub. left.
Qed.

(** Every non-null value is counted in exactly one group. *)
Lemma sum_group_by_count (keys : list string) :
  sum_list (group_by_count keys).*2 = length keys.
Proof.
  unfold group_by_count. rewrite <- list_fmap_compose.
  rewrite <- (sum_group_sizes (remove_dups keys) keys).
  - done.
  - apply NoDup_remove_dups.
  - intros x. by rewrite elem_of_remove_dups.
Qed.

Lemma order_by_count_desc_perm (groups : list (string * nat)) :
  order_by_count_desc groups ≡ₚ groups.
Proof. apply merge_sort_Permutation. Qed.

Lemma order_by_count_desc_sorted (groups : list (string * nat)) :
  StronglySorted count_desc (order_by_count_desc groups).
Proof. apply StronglySorted_merge_sort; apply _. Qed.

Lemma ordered_groups_NoDup (keys : list string) :
  NoDup (order_by_count_desc (group_by_count keys)).*1.
Proof.
  rewrite order_by_count_desc_perm, group_by_count_keys.
  apply NoDup_remove_dups.
Qed.

Lemma StronglySorted_take {A} (R : A → A → Prop) (n : nat) (l : list A) :
  StronglySorted R l → StronglySorted R (take n l).
Proof.
  intros H. rewrite <- (take_drop n l) in H.
  by apply StronglySorted_app_1_l in H.
Qed.

Lemma get_client_stats_eq s :
  get_client_stats s =
    (Return
       {| total_clients := length (clients s);
          clients_by_country :=
            dict (order_by_count_desc
                    (group_by_count (omap Clients.country (clients s))));
          clients_by_city :=
            dict (take 10 (order_by_count_desc
                            (group_by_count (omap Clients.city (clients s))))) |},
     s).
Proof. done. Qed.

(** C7. [get_client_stats] leaves the database alone.  [total_clients] is
    the number of client rows.  Each of the two mappings lists its entries
    by descending count, under distinct keys, and the count under a key is
    the number of clients that hold that country (that city): a client
    whose country (city) is NULL is counted under no key.
    [clients_by_city] has at most 10 entries; [clients_by_country] has a
    key for every country a client holds, and its counts add up to the
    number of clients with a country.  [clients_by_country] has as many
    entries as there are distinct countries and [clients_by_city] as many
    as there are distinct cities, up to 10: they are the 10 cities most
    held, in that a city a client holds is a key of [clients_by_city]
    unless the mapping has 10 entries that each count at least as many
    clients as hold that city. *)
Theorem get_client_stats_spec (s : db) :
  ∃ st,
    get_client_stats s = (Return st, s) ∧
    total_clients st = length (clients s) ∧
    (length (clients_by_city st) ≤ 10)%nat ∧
    StronglySorted count_desc (clients_by_city st) ∧
    StronglySorted count_desc (clients_by_country st) ∧
    NoDup (clients_by_city st).*1 ∧
    NoDup (clients_by_country st).*1 ∧
    (∀ k n, (k, n) ∈ clients_by_city st →
       (0 < n)%nat ∧
       n = length (filter (λ r, Clients.city r = Some k) (clients s))) ∧
    (∀ k n, (k, n) ∈ clients_by_country st →
       (0 < n)%nat ∧
       n = length (filter (λ r, Clients.country r = Some k) (clients s))) ∧
    (∀ r k, r ∈ clients s → Clients.country r = Some k →
       k ∈ (clients_by_country st).*1) ∧
    sum_list (clients_by_country st).*2
      = length (filter (λ r, Clients.country r ≠ None) (clients s)) ∧
    length (clients_by_country st)
      = length (remove_dups (omap Clients.country (clients s))) ∧
    length (clients_by_city st)
      = (10 `min` length (remove_dups (omap Clients.city (clients s))))%nat ∧
    (∀ r k, r ∈ clients s → Clients.city r = Some k →
       k ∈ (clients_by_city st).*1 ∨
       (length (clients_by_city st) = 10%nat ∧
        ∀ k' n, (k', n) ∈ clients_by_city st →
          (length (filter (λ r, Clients.city r = Some k) (clients s)) ≤ n)%nat)).
Proof.
  rewrite get_client_stats_eq. eexists. split; [reflexivity|]. simpl.
  set (countries := omap Clients.country (clients s)).
  set (cities := omap Clients.city (clients s)).
  assert (Hcity : NoDup (take 10 (order_by_count_desc (group_by_count cities))).*1).
  { rewrite fmap_take. eapply sublist_NoDup; [apply ordered_groups_NoDup|].
    apply sublist_take. }
  rewrite !dict_NoDup by (done || apply ordered_groups_NoDup).
  split; [done|]. split; [rewrite length_take; lia|].
  split; [apply StronglySorted_take, order_by_count_desc_sorted|].
  split; [apply order_by_count_desc_sorted|].
  split; [done|]. split; [apply ordered_groups_NoDup|].
  split; [|split; [|split; [|split; [|split; [|split]]]]].
  - intros k n Hkn. apply subseteq_take in Hkn.
    rewrite order_by_count_desc_perm in Hkn.
    apply elem_of_group_by_count in Hkn as [Hk ->].
    split; [by apply group_size_pos|]. apply group_size_omap.
  - intros k n Hkn. rewrite order_by_count_desc_perm in Hkn.
    apply elem_of_group_by_count in Hkn as [Hk ->].
    split; [by apply group_size_pos|]. apply group_size_omap.
  - intros r k Hr Hk. rewrite order_by_count_desc_perm, group_by_count_keys.
    apply elem_of_remove_dups, list_elem_of_omap. by exists r.
  - rewrite order_by_count_desc_perm, sum_group_by_count.
    apply length_omap_not_None.
  - rewrite order_by_count_desc_perm. unfold group_by_count.
    apply length_fmap.
  - rewrite length_take, order_by_count_desc_perm. unfold group_by_count.
    by rewrite length_fmap.
  - intros r k Hr Hk.
    set (groups := order_by_count_desc (group_by_count cities)).
    assert (Hkin : (k, group_size k cities) ∈ take 10 groups ++ drop 10 groups).
    { rewrite take_drop. unfold groups. rewrite order_by_count_desc_perm.
      apply elem_of_group_by_count. split; [|done].
      apply list_elem_of_omap. by exists r. }
    apply elem_of_app in Hkin as [Hkin|Hkin].
    { left. apply list_elem_of_fmap. by exists (k, group_size k cities). }
    right. split.
    + assert (Hlen : (0 < length (drop 10 groups))%nat).
      { destruct (drop 10 groups); [by inv Hkin | simpl; lia]. }
      rewrite length_drop in Hlen. rewrite length_take. lia.
    + intros k' n Hk'. unfold cities in Hkin. rewrite <- group_size_omap.
      pose proof (order_by_count_desc_sorted (group_by_count cities)) as Hs.
      fold groups in Hs. rewrite <- (take_drop 10 groups) in Hs.
      exact (StronglySorted_app_1_elem_of _ _ _ _ _ Hs Hk' Hkin).
Qed.

(** ** The credential manager *)

Section AuthManager_facts.
Variable hashpw : string → string → option string.
Variable checkpw : string → string → bool.

Lemma create_user_eq username password is_admin salt ts s :
  create_user hashpw username password is_admin salt ts s =
    match hashpw password salt with
    | None => (Raise ValueError, s)
    | Some hashed =>
        if bool_decide (username ∈ Users.username <$> users s)
        then (Return false, s)
        else
          let rowid := next_rowid (users_seq s) (Users.id <$> users s) in
          (Return true,
           {| users := users s ++
                [Users.mk rowid username hashed is_admin (Some ts)];
              users_seq := rowid;
              clients := clients s; clients_seq := clients_seq s |})
    end.
Proof.
  unfold create_user, except_IntegrityError, with_connection, mbind,
    db_op_bind, call, hash_password, insert_user.
  destruct (hashpw password salt); [|done]. by case_bool_decide.
Qed.

Lemma authenticate_user_eq username password s :
  authenticate_user checkpw username password s =
    (Return
       match find (λ r, bool_decide (Users.username r = username)) (users s) with
       | Some r =>
           if checkpw password (Users.password_hash r)
           then Some [("id", PyInt (Users.id r));
                      ("username", PyStr (Users.username r));
                      ("is_admin", PyBool (Users.is_admin r))]
           else None
       | None => None
       end, s).
Proof.
  unfold authenticate_user, with_connection, mbind, db_op_bind,
    select_user_by_username, verify_password.
  destruct (find _ _) as [r|]; [|done]. by destruct (checkpw _ _).
Qed.

Lemma change_password_eq user_id old_password new_password salt s :
  change_password hashpw checkpw user_id old_password new_password salt s =
    match find (λ r, bool_decide (Users.id r = user_id)) (users s) with
    | Some r =>
        if checkpw old_password (Users.password_hash r)
        then
          match hashpw new_password salt with
          | Some new_hash =>
              (Return true,
               {| users := (λ r, if bool_decide (Users.id r = user_id)
                                 then Users.mk (Users.id r) (Users.username r)
                                        new_hash
                                        (Users.is_admin r) (Users.created_at r)
                                 else r) <$> users s;
                  users_seq := users_seq s;
                  clients := clients s; clients_seq := clients_seq s |})
          | None => (Raise ValueError, s)
          end
        else (Return false, s)
    | None => (Return false, s)
    end.
Proof.
  unfold change_password, with_connection, mbind, db_op_bind,
    select_password_hash, verify_password, call, hash_password.
  simpl. destruct (find _ _) as [r|]; [|done]. simpl.
  destruct (checkpw _ _); [|done]. by destruct (hashpw _ _).
Qed.

(** C9 (as amended). When a user already holds the username and
    [bcrypt] hashes the password, [create_user] returns false, it does
    not raise; when [bcrypt] refuses the password, the [ValueError] is
    raised, the username is not looked at.  Either way the database
    (that user's row with its hash and admin flag included) is left as it
    was. *)
Theorem create_user_existing_username
    (u : Users.row) (password : string) (is_admin : bool)
    (salt ts : string) (s : db) :
  u ∈ users s →
  (∀ hashed, hashpw password salt = Some hashed →
     create_user hashpw (Users.username u) password is_admin salt ts s
       = (Return false, s)) ∧
  (hashpw password salt = None →
     create_user hashpw (Users.username u) password is_admin salt ts s
       = (Raise ValueError, s)).
Proof.
  intros Hu. rewrite create_user_eq. split.
  - intros hashed ->. rewrite bool_decide_eq_true_2; [done|].
    by apply list_elem_of_fmap_2.
  - by intros ->.
Qed.

(** C5. [authenticate_user] returns [None] when no user has the
    username, and when the user with it has a hash the password does not
    verify against; when the password verifies it returns the
    dictionary of that user's [id], [username] and [is_admin], in which
    [password_hash] is no key.  The database is left as it was. *)
Theorem authenticate_user_spec (username password : string) (s : db) :
  wf_db s →
  ((∀ r, r ∈ users s → Users.username r ≠ username) →
     authenticate_user checkpw username password s = (Return None, s)) ∧
  (∀ r, r ∈ users s → Users.username r = username →
     verify_password checkpw password (Users.password_hash r) = false →
     authenticate_user checkpw username password s = (Return None, s)) ∧
  (∀ r, r ∈ users s → Users.username r = username →
     verify_password checkpw password (Users.password_hash r) = true →
     authenticate_user checkpw username password s
       = (Return (Some [("id", PyInt (Users.id r));
                        ("username", PyStr (Users.username r));
                        ("is_admin", PyBool (Users.is_admin r))]), s)) ∧
  (∀ d, authenticate_user checkpw username password s = (Return (Some d), s) →
     d.*1 = ["id"; "username"; "is_admin"] ∧ "password_hash" ∉ d.*1).
Proof.
  intros Hwf. rewrite authenticate_user_eq. unfold verify_password.
  split; [|split; [|split]].
  - intros Hnone. by rewrite find_key_None.
  - intros r Hr <- Hv.
    rewrite (find_key Users.username) by (apply Hwf || done). by rewrite Hv.
  - intros r Hr <- Hv.
    rewrite (find_key Users.username) by (apply Hwf || done). by rewrite Hv.
  - intros d Hd. destruct (find _ _) as [r|]; [|done].
    destruct (checkpw _ _); [|done]. simplify_eq. simpl. split; [done|].
    rewrite !not_elem_of_cons. repeat split; try done. apply not_elem_of_nil.
Qed.

(** [change_password] returns false exactly when it leaves the database
    as it was: no user has the id, or the old password does not verify
    against the stored hash. *)
Lemma change_password_false user_id old_password new_password salt s s' :
  change_password hashpw checkpw user_id old_password new_password salt s
    = (Return false, s') →
  s' = s.
Proof.
  rewrite change_password_eq. destruct (find _ _) as [r|]; [|congruence].
  destruct (checkpw _ _); [|congruence]. destruct (hashpw _ _); congruence.
Qed.

(** When [change_password] returns true the old password verified
    against the hash the user had, [bcrypt] hashed the new one, and that
    user's row now holds the new hash; nothing else changed. *)
Lemma change_password_true user_id old_password new_password salt s s' :
  wf_db s →
  change_password hashpw checkpw user_id old_password new_password salt s
    = (Return true, s') →
  ∃ u new_hash,
    u ∈ users s ∧ Users.id u = user_id ∧
    checkpw old_password (Users.password_hash u) = true ∧
    hashpw new_password salt = Some new_hash ∧
    clients s' = clients s ∧
    users s' = (λ r, if bool_decide (Users.id r = user_id)
                     then Users.mk (Users.id u) (Users.username u)
                            new_hash
                            (Users.is_admin u) (Users.created_at u)
                     else r) <$> users s.
Proof.
  intros Hwf. rewrite change_password_eq.
  destruct (find _ _) as [u|] eqn:Hfind; [|congruence].
  destruct (checkpw _ _) eqn:Hv; [|congruence].
  destruct (hashpw _ _) as [new_hash|] eqn:Hh; [|congruence].
  intros [= <-]. apply find_some in Hfind as [Hu Hid].
  apply list_elem_of_In in Hu. apply bool_decide_eq_true in Hid.
  exists u, new_hash. repeat split; try done. simpl.
  apply list_fmap_ext. intros i r Hr. case_bool_decide as Hrid; [|done].
  apply list_elem_of_lookup_2 in Hr.
  assert (r = u) as ->; [|done].
  apply (NoDup_key_eq Users.id (users s)); [apply Hwf|done|done|congruence].
Qed.

End AuthManager_facts.

(** ** The constraints hold in every database the program reaches *)

Lemma NoDup_fmap_List_filter {A K} (key : A → K) (f : A → bool) (l : list A) :
  NoDup (key <$> l) → NoDup (key <$> List.filter f l).
Proof.
  induction l as [|a l IH]; [done|]. rewrite fmap_cons, NoDup_cons.
  intros [Ha Hnd]. simpl. destruct (f a); [|by apply IH].
  rewrite fmap_cons, NoDup_cons. split; [|by apply IH].
  intros (x & Hk & Hx)%list_elem_of_fmap. apply Ha. rewrite Hk.
  apply list_elem_of_fmap_2. by apply elem_of_List_filter in Hx as [? _].
Qed.

Lemma NoDup_fmap_snoc {A K} (key : A → K) (l : list A) (x : A) :
  NoDup (key <$> l) → key x ∉ key <$> l → NoDup (key <$> (l ++ [x])).
Proof.
  intros Hnd Hx. rewrite fmap_app. apply NoDup_app. split; [done|].
  split; [|apply NoDup_singleton].
  intros k Hk Hk'. apply list_elem_of_singleton in Hk'. by subst.
Qed.

Lemma email_taken_by_other_spec (e : string) (client_id : Z)
    (rows : list Clients.row) :
  email_taken_by_other e client_id rows = true ↔
  ∃ o, o ∈ rows ∧ Clients.id o ≠ client_id ∧ Clients.email o = e.
Proof.
  split.
  - intros (o & Ho & Hb)%existsb_exists.
    apply andb_true_iff in Hb as [H1%bool_decide_eq_true H2%bool_decide_eq_true].
    exists o. by rewrite list_elem_of_In.
  - intros (o & Ho & Hid & He). by eapply email_taken_by_other_true.
Qed.

Lemma find_key_cases {A K} `{EqDecision K} (key : A → K) (l : list A) (k : K) :
  (∃ x, x ∈ l ∧ key x = k) ∨ (∀ r, r ∈ l → key r ≠ k).
Proof.
  destruct (find (λ r, bool_decide (key r = k)) l) as [x|] eqn:Hf.
  - left. apply find_some in Hf as [Hx Hk%bool_decide_eq_true].
    exists x. by rewrite list_elem_of_In.
  - right. intros r Hr. eapply find_none in Hf; [|by apply list_elem_of_In].
    by apply bool_decide_eq_false in Hf.
Qed.

Lemma wf_create_client name email phone company address city country ts s r s' :
  wf_db s →
  create_client name email phone company address city country ts s = (r, s') →
  wf_db s'.
Proof.
  intros [Hids Hemails Huids Hunames]. rewrite create_client_eq.
  case_bool_decide as Hin; intros [= <- <-]; [done|].
  split; simpl; [| |done|done].
  - apply NoDup_fmap_snoc; [done|]. apply next_rowid_fresh.
  - by apply NoDup_fmap_snoc.
Qed.

Lemma wf_delete_client client_id s r s' :
  wf_db s → delete_client client_id s = (r, s') → wf_db s'.
Proof.
  intros [Hids Hemails Huids Hunames]. rewrite delete_client_eq.
  intros [= <- <-]. split; simpl; [| |done|done];
    by apply NoDup_fmap_List_filter.
Qed.

Lemma wf_update_client client_id (kwargs : gmap column (option string))
    now s r s' :
  wf_db s → update_client client_id kwargs now s = (r, s') → wf_db s'.
Proof.
  intros Hwf.
  destruct (decide (kwargs = ∅)) as [He|Hne].
  { rewrite update_client_empty by done. by intros [= <- <-]. }
  destruct (find_key_cases Clients.id (clients s) client_id)
    as [(c & Hc & Hid) | Hnone].
  2:{ rewrite update_client_no_row by done. by intros [= <- <-]. }
  destruct (decide (kwargs !! col_name = Some None)) as [Hn|Hn].
  { rewrite (update_client_violation _ _ _ _ c) by auto. by intros [= <- <-]. }
  destruct (decide (kwargs !! col_email = Some None)) as [Hm|Hm].
  { rewrite (update_client_violation _ _ _ _ c) by auto. by intros [= <- <-]. }
  assert (Hcases : (∃ e o, kwargs !! col_email = Some (Some e) ∧ o ∈ clients s ∧
                           Clients.id o ≠ client_id ∧ Clients.email o = e) ∨
                   (∀ e o, kwargs !! col_email = Some (Some e) → o ∈ clients s →
                           Clients.id o ≠ client_id → Clients.email o ≠ e)).
  { destruct (kwargs !! col_email) as [[e|]|] eqn:Ee; [|by right..].
    destruct (email_taken_by_other e client_id (clients s)) eqn:Ht.
    - left. apply email_taken_by_other_spec in Ht as (o & ? & ? & ?).
      by exists e, o.
    - right. intros e' o [= <-] Ho Hoid Hoe.
      assert (email_taken_by_other e client_id (clients s) = true)
        by (apply email_taken_by_other_spec; by exists o).
      congruence. }
  destruct Hcases as [Hbad | Hfree].
  { rewrite (update_client_violation _ _ _ _ c) by auto. by intros [= <- <-]. }
  destruct (update_client_hit client_id kwargs now s c)
    as (c' & -> & Hid' & _ & _ & Hcols); try done.
  intros [= <- <-]. destruct Hwf as [Hids Hemails Huids Hunames].
  set (repl := λ r, if bool_decide (Clients.id r = client_id) then c' else r).
  assert (Hsame : Clients.id <$> (repl <$> clients s) = Clients.id <$> clients s).
  { rewrite <- list_fmap_compose. apply list_fmap_ext. intros i x _.
    simpl. unfold repl. case_bool_decide; congruence. }
  split; simpl; [by rewrite Hsame| |done|done].
  rewrite <- list_fmap_compose.
  apply NoDup_fmap_2_strong; [|by apply NoDup_fmap_1 in Hids].
  assert (Hmail : Clients.email c' = default (Clients.email c)
                    (default None (kwargs !! col_email))).
  { specialize (Hcols col_email ltac:(done)). simpl in Hcols.
    destruct (kwargs !! col_email) as [[e|]|]; simpl in *; congruence. }
  assert (Hclash : ∀ y, y ∈ clients s → Clients.id y ≠ client_id →
                        Clients.email c' ≠ Clients.email y).
  { intros y Hy Hyid Heq. rewrite Hmail in Heq.
    destruct (kwargs !! col_email) as [[e|]|] eqn:Ee; simpl in Heq.
    - by eapply (Hfree e y).
    - done.
    - apply Hyid. rewrite <- Hid. f_equal. symmetry.
      by apply (NoDup_key_eq Clients.email (clients s)). }
  intros x y Hx Hy. simpl. unfold repl.
  repeat case_bool_decide; intros Heq.
  - apply (NoDup_key_eq Clients.id (clients s)); [done..|congruence].
  - by apply Hclash in Heq.
  - symmetry in Heq. by apply Hclash in Heq.
  - by apply (NoDup_key_eq Clients.email (clients s)).
Qed.

Lemma wf_create_user hashpw username password is_admin salt ts s r s' :
  wf_db s →
  create_user hashpw username password is_admin salt ts s = (r, s') →
  wf_db s'.
Proof.
  intros [Hids Hemails Huids Hunames]. rewrite create_user_eq.
  destruct (hashpw password salt) as [hashed|]; [|by intros [= <- <-]].
  case_bool_decide as Hin; intros [= <- <-]; [done|].
  split; simpl; [done|done| |].
  - apply NoDup_fmap_snoc; [done|]. apply next_rowid_fresh.
  - by apply NoDup_fmap_snoc.
Qed.

Lemma wf_change_password hashpw checkpw user_id old_password new_password
    salt s r s' :
  wf_db s →
  change_password hashpw checkpw user_id old_password new_password salt s
    = (r, s') →
  wf_db s'.
Proof.
  intros [Hids Hemails Huids Hunames]. rewrite change_password_eq.
  destruct (find _ _) as [u|]; [|by intros [= <- <-]].
  destruct (checkpw _ _); [|by intros [= <- <-]].
  destruct (hashpw _ _) as [new_hash|]; [|by intros [= <- <-]].
  intros [= <- <-]. split; simpl; [done|done| |].
  - rewrite <- list_fmap_compose.
    erewrite list_fmap_ext; [exact Huids|].
    intros i x _. simpl. by case_bool_decide.
  - rewrite <- list_fmap_compose.
    erewrite list_fmap_ext; [exact Hunames|].
    intros i x _. simpl. by case_bool_decide.
Qed.

(** After a successful [change_password], whether [authenticate_user]
    accepts a password for that user is whether [checkpw] accepts it
    against the hash [hashpw new_password salt] gave. *)
Lemma change_password_then_authenticate hashpw checkpw (u : Users.row)
    old_password new_password salt password s s' :
  wf_db s → u ∈ users s →
  change_password hashpw checkpw (Users.id u) old_password new_password salt s
    = (Return true, s') →
  ∃ new_hash,
    hashpw new_password salt = Some new_hash ∧
    authenticate_user checkpw (Users.username u) password s'
    = (Return (if checkpw password new_hash
               then Some [("id", PyInt (Users.id u));
                          ("username", PyStr (Users.username u));
                          ("is_admin", PyBool (Users.is_admin u))]
               else None), s').
Proof.
  intros Hwf Hu Hch.
  pose proof (wf_change_password _ _ _ _ _ _ _ _ _ Hwf Hch) as Hwf'.
  destruct (change_password_true _ _ _ _ _ _ _ _ Hwf Hch)
    as (u' & new_hash & Hu' & Hid & _ & Hh & _ & Husers).
  assert (u' = u) as ->
    by (apply (NoDup_key_eq Users.id (users s)); [apply Hwf|done..]).
  exists new_hash. split; [done|].
  set (u2 := Users.mk (Users.id u) (Users.username u)
               new_hash (Users.is_admin u)
               (Users.created_at u)).
  assert (Hu2 : u2 ∈ users s').
  { rewrite Husers. apply list_elem_of_fmap. exists u.
    by rewrite bool_decide_eq_true_2. }
  rewrite authenticate_user_eq.
  pose proof (find_key Users.username (users s') u2
                ltac:(apply Hwf') Hu2) as Hfind.
  unfold u2 in Hfind at 1. simpl in Hfind. by rewrite Hfind.
Qed.

(** ** The tabular exports *)

(** X22. Both tabular exports put the header [ID, Nombre, Email,
    Teléfono, Empresa, Dirección, Ciudad, País, Fecha de Registro] first
    and then one line per client, in the order given, with the columns
    id, name, email, phone, company, address, city, country, created_at.
    A NULL field is an empty field of its CSV line and an empty cell of
    its Excel row, and so is an empty string. *)
Theorem clients_list_export_spec (clients : list Clients.row) :
  generate_clients_list_csv clients
    = ["ID"; "Nombre"; "Email"; "Teléfono"; "Empresa"; "Dirección";
       "Ciudad"; "País"; "Fecha de Registro"]
      :: ((λ r, [pretty (Clients.id r); Clients.name r; Clients.email r;
                 default "" (Clients.phone r);
                 default "" (Clients.company r);
                 default "" (Clients.address r);
                 default "" (Clients.city r);
                 default "" (Clients.country r);
                 default "" (Clients.created_at r)]) <$> clients) ∧
  generate_clients_list_excel clients
    = [CStr "ID"; CStr "Nombre"; CStr "Email"; CStr "Teléfono";
       CStr "Empresa"; CStr "Dirección"; CStr "Ciudad"; CStr "País";
       CStr "Fecha de Registro"]
      :: ((λ r, [CInt (Clients.id r);
                 from_option CStr CMissing (or_None (Clients.name r));
                 from_option CStr CMissing (or_None (Clients.email r));
                 from_option CStr CMissing (Clients.phone r ≫= or_None);
                 from_option CStr CMissing (Clients.company r ≫= or_None);
                 from_option CStr CMissing (Clients.address r ≫= or_None);
                 from_option CStr CMissing (Clients.city r ≫= or_None);
                 from_option CStr CMissing (Clients.country r ≫= or_None);
                 from_option CStr CMissing (Clients.created_at r ≫= or_None)])
            <$> clients).
Proof.
  unfold generate_clients_list_csv, generate_clients_list_excel,
    clients_frame, reindex. simpl. split; f_equal.
  - rewrite <- list_fmap_compose. apply list_fmap_ext. intros i r _. simpl.
    repeat f_equal; by destruct r as [? ? ? [] [] [] [] [] [] ?].
  - rewrite <- list_fmap_compose. apply list_fmap_ext. intros i r _. simpl.
    unfold or_None.
    repeat f_equal;
      destruct r as [? ? ? [] [] [] [] [] [] ?]; simpl; by repeat case_decide.
Qed.

(** ** The statements on the example database *)

Lemma example_db_reached :
  ∃ s1 s2,
    create_user example_hashpw "root" "secret" true "s4lt"
      "2024-01-01 09:00:00" empty_db = (Return true, s1) ∧
    create_client "Ana Gomez" "ana@x.com" None None None (Some "Lima") None
      "2024-01-01 10:00:00" s1 = (Return 1, s2) ∧
    create_client "Bob Diaz" "bob@x.com" (Some "555-0101") (Some "Acme") None
      (Some "Quito") (Some "Ecuador") "2024-01-02 11:30:00" s2
      = (Return 2, example_db).
Proof. eexists _, _. repeat split; vm_compute; reflexivity. Qed.

Lemma wf_example_db : wf_db example_db.
Proof.
  destruct example_db_reached as (s1 & s2 & H1 & H2 & H3).
  eapply wf_create_client; [|exact H3].
  eapply wf_create_client; [|exact H2].
  eapply wf_create_user; [|exact H1].
  apply wf_empty_db.
Qed.

Lemma ana_in_example_db : ana ∈ clients example_db.
Proof. simpl. left. Qed.

Lemma bob_in_example_db : bob ∈ clients example_db.
Proof. simpl. right. left. Qed.

Lemma root_in_example_db : root ∈ users example_db.
Proof. simpl. left. Qed.

Lemma create_client_duplicate_email_witness :
  create_client "Ana G." "ana@x.com" (Some "555-0199") None None None None
    "2024-03-01 08:00:00" example_db = (Raise IntegrityError, example_db) ∧
  get_client 1 example_db = (Return (Some ana), example_db).
Proof.
  exact (create_client_duplicate_email ana "Ana G." (Some "555-0199") None
           None None None "2024-03-01 08:00:00" example_db
           wf_example_db ana_in_example_db).
Defined.

(** C2, as first stated, fails.  Client 2 exists and the field set
    [{email: "ana@x.com"}] is not empty, yet [update_client] raises
    [IntegrityError] because client 1 holds that email: the named field is
    not changed and [updated_at] is not stamped. *)
Lemma update_client_email_collision :
  wf_db example_db ∧
  bob ∈ clients example_db ∧ Clients.id bob = 2 ∧
  ({[col_email := Some "ana@x.com"]} : gmap column (option string)) ≠ ∅ ∧
  update_client 2 {[col_email := Some "ana@x.com"]} "2024-02-01T09:00:00"
    example_db = (Raise IntegrityError, example_db) ∧
  get_client 2 example_db = (Return (Some bob), example_db) ∧
  Clients.email bob ≠ "ana@x.com" ∧
  Clients.updated_at bob ≠ Some "2024-02-01T09:00:00".
Proof.
  split; [apply wf_example_db|]. split; [apply bob_in_example_db|].
  split; [done|]. split; [apply map_non_empty_singleton|].
  split; [by vm_compute|]. split; [by vm_compute|]. split; by vm_compute.
Qed.

Lemma update_client_spec_witness :
  update_client 2 ∅ "2024-02-01T09:00:00" example_db
    = (Return false, example_db) ∧
  update_client 7 {[col_phone := Some "555-0102"]} "2024-02-01T09:00:00"
    example_db = (Return false, example_db) ∧
  (∃ c',
     update_client 2 {[col_phone := Some "555-0102"]} "2024-02-01T09:00:00"
       example_db
       = (Return true,
          {| users := [root]; users_seq := 1; clients := [ana; c'];
             clients_seq := 2 |}) ∧
     Clients.phone c' = Some "555-0102" ∧
     Clients.name c' = "Bob Diaz" ∧
     Clients.updated_at c' = Some "2024-02-01T09:00:00") ∧
  update_client 2 {[col_name := None]} "2024-02-01T09:00:00" example_db
    = (Raise IntegrityError, example_db).
Proof.
  split; [|split; [|split]].
  - destruct (update_client_spec 2 ∅ "2024-02-01T09:00:00" example_db
                wf_example_db) as (H & _).
    by apply H.
  - destruct (update_client_spec 7 {[col_phone := Some "555-0102"]}
                "2024-02-01T09:00:00" example_db wf_example_db)
      as (_ & H & _).
    apply H. intros r Hr. simpl in Hr.
    apply elem_of_cons in Hr as [->|Hr]; [by vm_compute|].
    apply elem_of_cons in Hr as [->|Hr]; [by vm_compute|].
    by apply not_elem_of_nil in Hr.
  - destruct (update_client_spec 2 {[col_phone := Some "555-0102"]}
                "2024-02-01T09:00:00" example_db wf_example_db)
      as (_ & _ & H & _).
    destruct (H bob bob_in_example_db eq_refl
                (map_non_empty_singleton _ _)
                ltac:(by vm_compute) ltac:(by vm_compute)
                ltac:(intros e o He; by vm_compute in He))
      as (c' & Hrun & _ & _ & Hup & Hcols).
    exists c'. split; [exact Hrun|]. split; [|split; [|exact Hup]].
    + pose proof (Hcols col_phone ltac:(done)) as Hp.
      by rewrite lookup_singleton_eq in Hp.
    + pose proof (Hcols col_name ltac:(done)) as Hn.
      rewrite lookup_singleton_ne in Hn by done. simpl in Hn. congruence.
  - destruct (update_client_spec 2 {[col_name := None]}
                "2024-02-01T09:00:00" example_db wf_example_db)
      as (_ & _ & _ & H).
    apply (H bob bob_in_example_db); [reflexivity| |by left].
    apply map_non_empty_singleton.
Defined.

(** C9, as first stated, fails.  The username root is taken, yet with a
    password of 73 bytes [create_user] does not return false: hashing
    comes before the INSERT and raises [ValueError], which the method
    does not catch. *)
Lemma create_user_long_password_raises :
  root ∈ users example_db ∧ Users.username root = "root" ∧
  String.length long_password = 73%nat ∧
  hash_password example_hashpw long_password "salt" = Raise ValueError ∧
  create_user example_hashpw "root" long_password false "salt"
    "2024-03-01 08:00:00" example_db = (Raise ValueError, example_db) ∧
  create_user example_hashpw "root" long_password false "salt"
    "2024-03-01 08:00:00" example_db ≠ (Return false, example_db).
Proof.
  split; [apply root_in_example_db|]. repeat split; by vm_compute.
Qed.

Lemma create_user_existing_username_witness :
  create_user example_hashpw "root" "other" false "salt"
    "2024-03-01 08:00:00" example_db = (Return false, example_db) ∧
  create_user example_hashpw "root" long_password false "salt"
    "2024-03-01 08:00:00" example_db = (Raise ValueError, example_db).
Proof.
  destruct (create_user_existing_username example_hashpw root "other" false
              "salt" "2024-03-01 08:00:00" example_db root_in_example_db)
    as [Hfalse _].
  destruct (create_user_existing_username example_hashpw root long_password
              false "salt" "2024-03-01 08:00:00" example_db
              root_in_example_db) as [_ Hraise].
  split.
  - exact (Hfalse (example_digest "other" "salt") eq_refl).
  - exact (Hraise eq_refl).
Defined.

Lemma authenticate_user_spec_witness :
  authenticate_user example_checkpw "nobody" "secret" example_db
    = (Return None, example_db) ∧
  authenticate_user example_checkpw "root" "guess" example_db
    = (Return None, example_db) ∧
  authenticate_user example_checkpw "root" "secret" example_db
    = (Return (Some [("id", PyInt 1); ("username", PyStr "root");
                     ("is_admin", PyBool true)]), example_db).
Proof.
  split; [|split].
  - destruct (authenticate_user_spec example_checkpw "nobody" "secret"
                example_db wf_example_db) as (H & _).
    apply H. intros r Hr. simpl in Hr.
    apply elem_of_cons in Hr as [->|Hr]; [by vm_compute|].
    by apply not_elem_of_nil in Hr.
  - destruct (authenticate_user_spec example_checkpw "root" "guess"
                example_db wf_example_db) as (_ & H & _).
    apply (H root root_in_example_db); by vm_compute.
  - destruct (authenticate_user_spec example_checkpw "root" "secret"
                example_db wf_example_db) as (_ & _ & H & _).
    apply (H root root_in_example_db); by vm_compute.
Defined.

(** C6. The tabular exports do keep the column order and the headers,
    but they do not put the placeholder in: Ana has no phone, and the
    phone field of her CSV line is the empty string and the phone cell of
    her Excel row is empty, where the table of the PDF list, built from
    the same record, reads ["N/A"]. *)
Lemma clients_list_export_null_not_NA :
  Clients.phone ana = None ∧
  clients_list_table_data [ana] !! 1%nat ≫= (.!! 3%nat) = Some (CStr "N/A") ∧
  generate_clients_list_csv [ana]
    = [["ID"; "Nombre"; "Email"; "Teléfono"; "Empresa"; "Dirección";
        "Ciudad"; "País"; "Fecha de Registro"];
       ["1"; "Ana Gomez"; "ana@x.com"; ""; ""; ""; "Lima"; "";
        "2024-01-01 10:00:00"]] ∧
  generate_clients_list_csv [ana] !! 1%nat ≫= (.!! 3%nat) = Some "" ∧
  generate_clients_list_csv [ana] !! 1%nat ≫= (.!! 3%nat) ≠ Some "N/A" ∧
  generate_clients_list_excel [ana] !! 1%nat ≫= (.!! 3%nat) = Some CMissing ∧
  generate_clients_list_excel [ana] !! 1%nat ≫= (.!! 3%nat) ≠ Some (CStr "N/A").
Proof. repeat split; by vm_compute. Qed.

(** * More of the code *)

(** ** Every reachable database satisfies the constraints *)

Lemma wf_step hashpw checkpw s s' :
  step hashpw checkpw s s' → wf_db s → wf_db s'.
Proof.
  intros [] Hwf;
    eauto using wf_create_client, wf_update_client, wf_delete_client,
      wf_create_user, wf_change_password.
Qed.

(** X1. In every database the program can reach from the empty one by
    creating, updating and deleting clients, creating users and changing
    passwords, client ids, client emails, user ids and usernames are each
    unique. *)
Theorem reachable_wf hashpw checkpw (s : db) :
  reachable hashpw checkpw s → wf_db s.
Proof.
  unfold reachable. revert s. apply rtc_ind_r.
  - apply wf_empty_db.
  - intros s s' _ Hstep Hwf. by eapply wf_step.
Qed.

Lemma example_db_reachable : reachable example_hashpw example_checkpw example_db.
Proof.
  destruct example_db_reached as (s1 & s2 & H1 & H2 & H3).
  unfold reachable.
  eapply rtc_l; [eapply step_create_user, H1|].
  eapply rtc_l; [eapply step_create_client, H2|].
  eapply rtc_l; [eapply step_create_client, H3|].
  apply rtc_refl.
Qed.

Lemma reachable_wf_witness : wf_db example_db.
Proof.
  exact (reachable_wf example_hashpw example_checkpw example_db
           example_db_reachable).
Defined.

(** ** Client ids are not reused *)

Lemma update_clients_frame (kwargs : gmap column (option string)) client_id
    s r s' :
  update_clients kwargs client_id s = (r, s') →
  clients_seq s' = clients_seq s ∧ users s' = users s.
Proof.
  unfold update_clients. destruct (mapM _ _); [destruct (_ && _)|];
    by intros [= <- <-].
Qed.

Lemma step_clients_seq hashpw checkpw s s' :
  step hashpw checkpw s s' → clients_seq s ≤ clients_seq s'.
Proof.
  intros [name email phone company address city country ts s0 r s0' H
         |client_id kwargs now s0 r s0' H
         |client_id s0 r s0' H
         |username password is_admin salt ts s0 r s0' H
         |user_id old_password new_password salt s0 r s0' H].
  - rewrite create_client_eq in H. cbv zeta in H.
    case_bool_decide; simplify_eq; simpl; [lia|].
    pose proof (next_rowid_gt_seq (clients_seq s0) (Clients.id <$> clients s0)).
    lia.
  - destruct (decide (kwargs = ∅)) as [He|Hne].
    { rewrite update_client_empty in H by done. simplify_eq. lia. }
    rewrite update_client_nonempty in H by done.
    destruct (update_clients _ _ _) as [[n|e] s1] eqn:E;
      apply update_clients_frame in E as [E _]; simplify_eq; lia.
  - rewrite delete_client_eq in H. cbv zeta in H. simplify_eq. simpl. lia.
  - rewrite create_user_eq in H. cbv zeta in H.
    destruct (hashpw _ _); [|simplify_eq; lia].
    case_bool_decide; simplify_eq; simpl; lia.
  - rewrite change_password_eq in H.
    destruct (find _ _); [|simplify_eq; lia].
    destruct (checkpw _ _); [|simplify_eq; lia].
    destruct (hashpw _ _); simplify_eq; simpl; lia.
Qed.

Lemma steps_clients_seq hashpw checkpw s s' :
  rtc (step hashpw checkpw) s s' → clients_seq s ≤ clients_seq s'.
Proof.
  induction 1 as [|x y z Hxy _ IH]; [lia|].
  apply step_clients_seq in Hxy. lia.
Qed.

(** X2. An id [create_client] has returned is never returned again,
    whatever is created, updated or deleted in between (the client itself
    included): a later [create_client] returns a larger id. *)
Theorem create_client_id_not_reused hashpw checkpw
    name1 email1 phone1 company1 address1 city1 country1 ts1
    name2 email2 phone2 company2 address2 city2 country2 ts2
    (s s1 s2 s3 : db) (id1 id2 : Z) :
  create_client name1 email1 phone1 company1 address1 city1 country1 ts1 s
    = (Return id1, s1) →
  rtc (step hashpw checkpw) s1 s2 →
  create_client name2 email2 phone2 company2 address2 city2 country2 ts2 s2
    = (Return id2, s3) →
  id1 < id2.
Proof.
  intros H1 Hsteps H2.
  rewrite create_client_eq in H1. cbv zeta in H1.
  case_bool_decide; [done|]. simplify_eq.
  rewrite create_client_eq in H2. cbv zeta in H2.
  case_bool_decide; [done|]. simplify_eq.
  apply steps_clients_seq in Hsteps. simpl in Hsteps.
  pose proof (next_rowid_gt_seq (clients_seq s2) (Clients.id <$> clients s2)).
  lia.
Qed.

Lemma create_client_id_not_reused_witness :
  let s1 := (create_client "Ana Gomez" "ana@x.com" None None None None None
               "2024-01-01 10:00:00" empty_db).2 in
  let s2 := (delete_client 1 s1).2 in
  let s3 := (create_client "Ana Gomez" "ana@x.com" None None None None None
               "2024-01-03 10:00:00" s2).2 in
  create_client "Ana Gomez" "ana@x.com" None None None None None
    "2024-01-01 10:00:00" empty_db = (Return 1, s1) ∧
  delete_client 1 s1 = (Return true, s2) ∧
  create_client "Ana Gomez" "ana@x.com" None None None None None
    "2024-01-03 10:00:00" s2 = (Return 2, s3) ∧
  1 < 2.
Proof.
  intros s1 s2 s3.
  split; [reflexivity|]. split; [reflexivity|]. split; [reflexivity|].
  apply (create_client_id_not_reused example_hashpw example_checkpw
           "Ana Gomez" "ana@x.com" None None None None None
           "2024-01-01 10:00:00"
           "Ana Gomez" "ana@x.com" None None None None None
           "2024-01-03 10:00:00" empty_db s1 s2 s3 1 2);
    [reflexivity| |reflexivity].
  eapply rtc_l; [|apply rtc_refl].
  by eapply (step_delete_client _ _ 1 s1 (Return true) s2).
Defined.

(** ** [update_client] followed by [get_client] *)

(** When [update_client] returns true it updated the one row with the
    id. *)
Lemma update_client_true_inv client_id (kwargs : gmap column (option string))
    now s s' :
  wf_db s → update_client client_id kwargs now s = (Return true, s') →
  ∃ c c',
    c ∈ clients s ∧ Clients.id c = client_id ∧
    s' = {| users := users s; users_seq := users_seq s;
            clients := (λ r, if bool_decide (Clients.id r = client_id)
                             then c' else r) <$> clients s;
            clients_seq := clients_seq s |} ∧
    Clients.id c' = client_id ∧
    Clients.created_at c' = Clients.created_at c ∧
    Clients.updated_at c' = Some now ∧
    (∀ col, col ≠ col_updated_at →
            column_value col c' = default (column_value col c) (kwargs !! col)).
Proof.
  intros Hwf.
  destruct (decide (kwargs = ∅)) as [He|Hne].
  { by rewrite update_client_empty. }
  destruct (find_key_cases Clients.id (clients s) client_id)
    as [(c & Hc & Hid) | Hnone].
  2:{ by rewrite update_client_no_row. }
  destruct (decide (kwargs !! col_name = Some None)) as [Hn|Hn].
  { by rewrite (update_client_violation _ _ _ _ c) by auto. }
  destruct (decide (kwargs !! col_email = Some None)) as [Hm|Hm].
  { by rewrite (update_client_violation _ _ _ _ c) by auto. }
  assert (Hcases : (∃ e o, kwargs !! col_email = Some (Some e) ∧ o ∈ clients s ∧
                           Clients.id o ≠ client_id ∧ Clients.email o = e) ∨
                   (∀ e o, kwargs !! col_email = Some (Some e) → o ∈ clients s →
                           Clients.id o ≠ client_id → Clients.email o ≠ e)).
  { destruct (kwargs !! col_email) as [[e|]|] eqn:Ee; [|by right..].
    destruct (email_taken_by_other e client_id (clients s)) eqn:Ht.
    - left. apply email_taken_by_other_spec in Ht as (o & ? & ? & ?).
      by exists e, o.
    - right. intros e' o [= <-] Ho Hoid Hoe.
      assert (email_taken_by_other e client_id (clients s) = true)
        by (apply email_taken_by_other_spec; by exists o).
      congruence. }
  destruct Hcases as [Hbad | Hfree].
  { by rewrite (update_client_violation _ _ _ _ c) by auto. }
  destruct (update_client_hit client_id kwargs now s c)
    as (c' & -> & Hid' & Hcr & Hup & Hcols); try done.
  intros [= <-]. by exists c, c'.
Qed.

Lemma find_replaced_hit (client_id : Z) (c c' : Clients.row)
    (rows : list Clients.row) :
  c ∈ rows → Clients.id c = client_id → Clients.id c' = client_id →
  find (λ r, bool_decide (Clients.id r = client_id))
    ((λ r, if bool_decide (Clients.id r = client_id) then c' else r) <$> rows)
  = Some c'.
Proof.
  intros Hc Hid Hid'. induction rows as [|a rows IH]; [by inv Hc|].
  rewrite fmap_cons. simpl.
  destruct (decide (Clients.id a = client_id)) as [Ha|Ha].
  - rewrite (bool_decide_eq_true_2 _ Ha).
    by rewrite (bool_decide_eq_true_2 _ Hid').
  - rewrite (bool_decide_eq_false_2 _ Ha).
    rewrite (bool_decide_eq_false_2 _ Ha). apply IH.
    apply elem_of_cons in Hc as [->|Hc]; [done|assumption].
Qed.

Lemma find_replaced_other (client_id other : Z) (c' : Clients.row)
    (rows : list Clients.row) :
  other ≠ client_id → Clients.id c' = client_id →
  find (λ r, bool_decide (Clients.id r = other))
    ((λ r, if bool_decide (Clients.id r = client_id) then c' else r) <$> rows)
  = find (λ r, bool_decide (Clients.id r = other)) rows.
Proof.
  intros Hne Hid'. induction rows as [|a rows IH]; [done|].
  rewrite fmap_cons. simpl.
  destruct (decide (Clients.id a = client_id)) as [Ha|Ha].
  - rewrite (bool_decide_eq_true_2 _ Ha).
    rewrite !bool_decide_eq_false_2 by congruence. apply IH.
  - rewrite (bool_decide_eq_false_2 _ Ha).
    case_bool_decide; [done|apply IH].
Qed.

(** X3. When [update_client] returns true, [get_client] on that id
    afterwards returns the row it returned before with the bound value
    under every named column and [now] under [updated_at], the id and
    [created_at] as they were; [get_client] on any other id returns what
    it returned before. *)
Theorem update_client_then_get_client (client_id : Z)
    (kwargs : gmap column (option string)) (now : string) (s s' : db) :
  wf_db s → update_client client_id kwargs now s = (Return true, s') →
  ∃ c c',
    get_client client_id s = (Return (Some c), s) ∧
    get_client client_id s' = (Return (Some c'), s') ∧
    Clients.id c' = Clients.id c ∧
    Clients.created_at c' = Clients.created_at c ∧
    Clients.updated_at c' = Some now ∧
    (∀ col, col ≠ col_updated_at →
            column_value col c' = default (column_value col c) (kwargs !! col)) ∧
    (∀ other, other ≠ client_id →
              (get_client other s').1 = (get_client other s).1).
Proof.
  intros Hwf Hrun.
  destruct (update_client_true_inv _ _ _ _ _ Hwf Hrun)
    as (c & c' & Hc & Hid & -> & Hid' & Hcr & Hup & Hcols).
  exists c, c'. rewrite !get_client_eq. simpl.
  split; [|split; [|split; [|split; [|split; [|split]]]]]; try done.
  - f_equal. f_equal. rewrite <- Hid.
    apply (find_key Clients.id); [apply Hwf|done].
  - f_equal. f_equal. by eapply find_replaced_hit.
  - congruence.
  - intros other Hother. simpl. f_equal.
    by apply find_replaced_other.
Qed.

Lemma update_client_then_get_client_witness :
  let s' := (update_client 2 {[col_phone := Some "555-0102"]}
               "2024-02-01T09:00:00" example_db).2 in
  ∃ c',
    get_client 2 s' = (Return (Some c'), s') ∧
    Clients.updated_at c' = Some "2024-02-01T09:00:00" ∧
    column_value col_phone c' = Some "555-0102" ∧
    (get_client 1 s').1 = (get_client 1 example_db).1.
Proof.
  intros s'.
  assert (Hrun : update_client 2 {[col_phone := Some "555-0102"]}
                   "2024-02-01T09:00:00" example_db = (Return true, s'))
    by reflexivity.
  destruct (update_client_then_get_client 2 {[col_phone := Some "555-0102"]}
              "2024-02-01T09:00:00" example_db s' wf_example_db Hrun)
    as (c & c' & _ & Hget & _ & _ & Hup & Hcols & Hother).
  exists c'. split; [exact Hget|]. split; [exact Hup|]. split.
  - rewrite (Hcols col_phone) by done. by rewrite lookup_singleton_eq.
  - by apply Hother.
Defined.

(** ** [get_all_clients] *)

(** X4. [get_all_clients] returns every client row exactly once, ordered
    by [created_at] from the latest down (rows with a NULL [created_at]
    last), and leaves the database as it was. *)
Theorem get_all_clients_spec (s : db) :
  ∃ rows,
    get_all_clients s = (Return rows, s) ∧
    rows ≡ₚ clients s ∧
    StronglySorted newest_first rows.
Proof.
  eexists. split; [reflexivity|]. split.
  - apply merge_sort_Permutation.
  - apply StronglySorted_merge_sort; apply _.
Qed.

(** ** Reports *)

Lemma elem_of_reports_join_clients (rs : list Reports.row)
    (cs : list Clients.row) (r : Reports.row) (n : string) :
  (r, n) ∈ reports_join_clients rs cs ↔
  r ∈ rs ∧ ∃ c, c ∈ cs ∧ Clients.id c = Reports.client_id r ∧ Clients.name c = n.
Proof.
  unfold reports_join_clients, join_client_name.
  rewrite list_elem_of_bind. split.
  - intros (r' & Hin & Hr').
    apply list_elem_of_fmap in Hin as (c & [= -> ->] & Hc).
    apply list_elem_of_filter in Hc as [Hid Hc]. split; [done|]. by exists c.
  - intros (Hr & c & Hc & Hid & <-). exists r. split; [|done].
    apply list_elem_of_fmap. exists c. split; [done|].
    by apply list_elem_of_filter.
Qed.

(** With unique client ids a report joins with at most one client. *)
Lemma filter_key_unique {A K} `{EqDecision K} (key : A → K) (l : list A)
    (x : A) :
  NoDup (key <$> l) → x ∈ l → filter (λ y, key y = key x) l = [x].
Proof.
  induction l as [|a l IH]; intros Hnd Hx; [by inv Hx|].
  rewrite fmap_cons, NoDup_cons in Hnd. destruct Hnd as [Ha Hnd].
  rewrite filter_cons. apply elem_of_cons in Hx as [->|Hx].
  - rewrite decide_True by done. f_equal.
    destruct (filter _ l) as [|y l'] eqn:Hf; [done|]. exfalso.
    assert (Hy : y ∈ filter (λ y, key y = key a) l) by (rewrite Hf; left).
    apply list_elem_of_filter in Hy as [Hk Hy]. apply Ha. rewrite <- Hk.
    by apply list_elem_of_fmap_2.
  - rewrite decide_False; [by apply IH|].
    intros Hk. apply Ha. rewrite Hk. by apply list_elem_of_fmap_2.
Qed.

Lemma filter_key_none {A K} `{EqDecision K} (key : A → K) (l : list A) (k : K) :
  (∀ y, y ∈ l → key y ≠ k) → filter (λ y, key y = k) l = [].
Proof.
  induction l as [|a l IH]; intros H; [done|]. rewrite filter_cons.
  rewrite decide_False by (apply H; left). apply IH.
  intros y Hy. apply H. by right.
Qed.

Lemma joined_reports_of_client (rs : list Reports.row) (cs : list Clients.row)
    (c : Clients.row) :
  NoDup (Clients.id <$> cs) → c ∈ cs →
  filter (λ rc, Reports.client_id rc.1 = Clients.id c)
    (reports_join_clients rs cs)
  = (λ r, (r, Clients.name c))
      <$> filter (λ r, Reports.client_id r = Clients.id c) rs.
Proof.
  intros Hnd Hc. unfold reports_join_clients.
  induction rs as [|r rs IH]; [done|].
  rewrite bind_cons, filter_app, IH, filter_cons.
  destruct (decide (Reports.client_id r = Clients.id c)) as [Hr|Hr].
  - unfold join_client_name. rewrite Hr.
    rewrite (filter_key_unique Clients.id cs c) by done. simpl.
    rewrite filter_cons, decide_True by done. by rewrite filter_nil.
  - replace (filter _ (join_client_name cs r)) with (@nil (Reports.row * string));
      [done|].
    symmetry. unfold join_client_name.
    induction (filter _ cs) as [|a l IHl]; [done|].
    rewrite fmap_cons, filter_cons, decide_False by done. apply IHl.
Qed.

Lemma joined_reports_no_client (rs : list Reports.row) (cs : list Clients.row)
    (client_id : Z) :
  (∀ c, c ∈ cs → Clients.id c ≠ client_id) →
  filter (λ rc, Reports.client_id rc.1 = client_id)
    (reports_join_clients rs cs) = [].
Proof.
  intros Hnone.
  destruct (filter _ _) as [|[r n] l] eqn:Hf; [done|]. exfalso.
  assert (Hin : (r, n) ∈ filter (λ rc, Reports.client_id rc.1 = client_id)
                          (reports_join_clients rs cs))
    by (rewrite Hf; left).
  apply list_elem_of_filter in Hin as [Hid Hin]. simpl in Hid.
  apply elem_of_reports_join_clients in Hin as (_ & c & Hc & Hcid & _).
  apply (Hnone c Hc). congruence.
Qed.

Lemma merge_sort_nil_inv {A} (R : relation A) `{∀ x y, Decision (R x y)}
    (l : list A) : l = [] → merge_sort R l = [].
Proof. by intros ->. Qed.

(** X5. [get_reports_by_client] leaves the database as it was and
    returns, from the latest [created_at] down, exactly the reports whose
    [client_id] is the given id, each once and with that client's name;
    when no client has the id it returns nothing, whatever reports name
    it. *)
Theorem get_reports_by_client_spec (client_id : Z) (s : report_db) :
  wf_db (main s) →
  ∃ rows,
    get_reports_by_client client_id s = (Return rows, s) ∧
    StronglySorted latest_first rows ∧
    (∀ c, c ∈ clients (main s) → Clients.id c = client_id →
       rows ≡ₚ (λ r, (r, Clients.name c))
                 <$> filter (λ r, Reports.client_id r = client_id) (reports s)) ∧
    ((∀ c, c ∈ clients (main s) → Clients.id c ≠ client_id) → rows = []).
Proof.
  intros Hwf. eexists. split; [reflexivity|]. split; [|split].
  - apply StronglySorted_merge_sort; apply _.
  - intros c Hc <-. rewrite merge_sort_Permutation.
    by rewrite joined_reports_of_client by (apply Hwf || done).
  - intros Hnone. apply merge_sort_nil_inv.
    by apply joined_reports_no_client.
Qed.

Lemma wf_main_example_report_db : wf_db (main example_report_db).
Proof. apply wf_example_db. Qed.

Lemma get_reports_by_client_spec_witness :
  ∃ rows,
    get_reports_by_client 2 example_report_db = (Return rows, example_report_db) ∧
    rows ≡ₚ (λ r, (r, "Bob Diaz"))
              <$> filter (λ r, Reports.client_id r = 2) example_reports ∧
    get_reports_by_client 9 example_report_db = (Return [], example_report_db).
Proof.
  destruct (get_reports_by_client_spec 2 example_report_db
              wf_main_example_report_db) as (rows & Hrun & _ & Hperm & _).
  destruct (get_reports_by_client_spec 9 example_report_db
              wf_main_example_report_db) as (rows9 & Hrun9 & _ & _ & Hnone).
  exists rows. split; [exact Hrun|]. split.
  - exact (Hperm bob bob_in_example_db eq_refl).
  - rewrite Hrun9. f_equal. f_equal. apply Hnone.
    intros c Hc. simpl in Hc.
    apply elem_of_cons in Hc as [->|Hc]; [by vm_compute|].
    apply elem_of_cons in Hc as [->|Hc]; [by vm_compute|].
    by apply not_elem_of_nil in Hc.
Defined.

Lemma get_report_stats_total (s : report_db) :
  get_report_stats s
  = (Return {| total_reports := length (reports s);
               reports_by_status :=
                 dict_of (count_groups (Reports.status <$> reports s));
               reports_by_type :=
                 dict_of (count_groups (Reports.report_type <$> reports s)) |},
     s).
Proof. done. Qed.

(** X6. Deleting a client leaves its reports in the [reports] table and
    in the total [get_report_stats] counts, but [get_reports_by_client]
    on the id then returns nothing and [get_all_reports] no longer lists
    any of them. *)
Theorem delete_client_orphans_reports (client_id : Z) (s s' : report_db)
    (r : outcome bool) :
  on_main (delete_client client_id) s = (r, s') →
  reports s' = reports s ∧
  (∃ st, get_report_stats s' = (Return st, s') ∧
         total_reports st = length (reports s)) ∧
  get_reports_by_client client_id s' = (Return [], s') ∧
  (∃ rows, get_all_reports s' = (Return rows, s') ∧
           ∀ row, row ∈ rows → Reports.client_id row.1 ≠ client_id).
Proof.
  unfold on_main. rewrite delete_client_eq. cbv zeta. intros [= <- <-].
  simpl. split; [done|]. split; [|split].
  - eexists. by rewrite get_report_stats_total.
  - unfold get_reports_by_client, with_report_connection. simpl.
    rewrite joined_reports_no_client; [done|].
    intros c Hc. apply elem_of_List_filter in Hc as [_ Hc].
    apply negb_true_iff in Hc. by apply bool_decide_eq_false in Hc.
  - eexists. split; [reflexivity|]. intros [row n] Hrow.
    rewrite merge_sort_Permutation in Hrow. simpl in Hrow.
    apply elem_of_reports_join_clients in Hrow as (_ & c & Hc & Hid & _).
    apply elem_of_List_filter in Hc as [_ Hc].
    apply negb_true_iff in Hc. apply bool_decide_eq_false in Hc.
    simpl. congruence.
Qed.

Lemma delete_client_orphans_reports_witness :
  let s' := (on_main (delete_client 2) example_report_db).2 in
  reports s' = example_reports ∧
  get_reports_by_client 2 s' = (Return [], s') ∧
  (get_report_stats s').1 = (get_report_stats example_report_db).1.
Proof.
  intros s'.
  destruct (delete_client_orphans_reports 2 example_report_db s' (Return true)
              eq_refl) as (Hrep & _ & Hget & _).
  split; [exact Hrep|]. split; [exact Hget|]. reflexivity.
Defined.

(** X7. [create_report] never checks that the client exists: it always
    returns a new id and stores a pending report under it, touching
    nothing else.  When a client has the id, [get_reports_by_client]
    then lists the report with that client's name; when none has it, the
    report is stored and counted but no listing shows it. *)
Theorem create_report_then_get_reports_by_client (client_id : Z)
    (title : string) (description : option string) (report_type ts : string)
    (s : report_db) :
  ∃ report_id s',
    create_report client_id title description report_type ts s
      = (Return report_id, s') ∧
    (let report := Reports.mk report_id client_id title description report_type
                     (Some "pending") (Some ts) (Some ts) in
    (report_id ∉ Reports.id <$> reports s) ∧
    main s' = main s ∧
    reports s' = reports s ++ [report] ∧
    (∃ st, get_report_stats s' = (Return st, s') ∧
           total_reports st = S (length (reports s))) ∧
    (∀ c, c ∈ clients (main s) → Clients.id c = client_id →
       ∃ rows, get_reports_by_client client_id s' = (Return rows, s') ∧
               (report, Clients.name c) ∈ rows) ∧
    ((∀ c, c ∈ clients (main s) → Clients.id c ≠ client_id) →
       get_reports_by_client client_id s' = (Return [], s') ∧
       ∃ rows, get_all_reports s' = (Return rows, s') ∧
               ∀ n, (report, n) ∉ rows)).
Proof.
  eexists _, _. split; [reflexivity|]. cbv zeta.
  set (report_id := next_rowid (reports_seq s) (Reports.id <$> reports s)).
  set (report := Reports.mk report_id client_id title description report_type
                   (Some "pending") (Some ts) (Some ts)).
  split; [apply next_rowid_fresh|]. split; [done|]. split; [done|].
  split; [|split].
  - eexists. rewrite get_report_stats_total. split; [reflexivity|]. simpl.
    rewrite length_app. simpl. lia.
  - intros c Hc Hid. eexists. split; [reflexivity|].
    rewrite merge_sort_Permutation. apply list_elem_of_filter. split; [done|].
    apply elem_of_reports_join_clients. simpl.
    split; [apply elem_of_app; right; left|]. by exists c.
  - intros Hnone. split.
    + unfold get_reports_by_client, with_report_connection. simpl.
      by rewrite joined_reports_no_client.
    + eexists. split; [reflexivity|]. intros n Hin.
      rewrite merge_sort_Permutation in Hin. simpl in Hin.
      apply elem_of_reports_join_clients in Hin as (_ & c & Hc & Hid & _).
      by apply (Hnone c Hc).
Qed.

Lemma create_report_then_get_reports_by_client_witness :
  let s1 := (create_report 1 "Intake" None "general" "2024-06-01 09:00:00"
               example_report_db).2 in
  let s2 := (create_report 7 "Lost" None "general" "2024-06-01 09:00:00"
               example_report_db).2 in
  (∃ rows, get_reports_by_client 1 s1 = (Return rows, s1) ∧
           (Reports.mk 4 1 "Intake" None "general" (Some "pending")
              (Some "2024-06-01 09:00:00") (Some "2024-06-01 09:00:00"),
            "Ana Gomez") ∈ rows) ∧
  get_reports_by_client 7 s2 = (Return [], s2).
Proof.
  intros s1 s2. split.
  - destruct (create_report_then_get_reports_by_client 1 "Intake" None
                "general" "2024-06-01 09:00:00" example_report_db)
      as (report_id & s' & Hrun & _ & _ & _ & _ & Hlisted & _).
    injection Hrun as <- <-. exact (Hlisted ana ana_in_example_db eq_refl).
  - destruct (create_report_then_get_reports_by_client 7 "Lost" None
                "general" "2024-06-01 09:00:00" example_report_db)
      as (report_id & s' & Hrun & _ & _ & _ & _ & _ & Hlost).
    injection Hrun as <- <-. apply Hlost.
    intros c Hc. simpl in Hc.
    apply elem_of_cons in Hc as [->|Hc]; [by vm_compute|].
    apply elem_of_cons in Hc as [->|Hc]; [by vm_compute|].
    by apply not_elem_of_nil in Hc.
Defined.

(** ** [get_report_stats] *)

Section groups.
Context {K : Type} `{EqDecision K}.

Lemma dict_store_fresh {V} (d : list (K * V)) (k : K) (v : V) :
  k ∉ d.*1 → dict_store d k v = d ++ [(k, v)].
Proof.
  induction d as [|[k' v'] d IH]; intros Hk; [done|]. simpl.
  rewrite fmap_cons, not_elem_of_cons in Hk. destruct Hk as [Hne Hk].
  rewrite decide_False by done. by rewrite IH.
Qed.

Lemma foldl_dict_store_NoDup {V} (pairs acc : list (K * V)) :
  NoDup ((acc ++ pairs).*1) →
  foldl (λ d kv, dict_store d kv.1 kv.2) acc pairs = acc ++ pairs.
Proof.
  revert acc. induction pairs as [|[k v] pairs IH]; intros acc Hnd; simpl.
  - by rewrite app_nil_r.
  - rewrite dict_store_fresh.
    + rewrite IH; rewrite <- app_assoc; [done|]. exact Hnd.
    + rewrite fmap_app, fmap_cons in Hnd.
      apply NoDup_app in Hnd as (_ & Hdisj & _).
      intros Hin. apply (Hdisj k Hin). left.
Qed.

Lemma dict_of_NoDup {V} (pairs : list (K * V)) :
  NoDup pairs.*1 → dict_of pairs = pairs.
Proof. intros Hnd. unfold dict_of. by rewrite foldl_dict_store_NoDup. Qed.

Lemma count_groups_keys (keys : list K) :
  (count_groups keys).*1 = remove_dups keys.
Proof.
  unfold count_groups. rewrite <- list_fmap_compose.
  induction (remove_dups keys) as [|k l IH]; [done|].
  rewrite fmap_cons. simpl. by f_equal.
Qed.

Lemma elem_of_count_groups (keys : list K) (k : K) (n : nat) :
  (k, n) ∈ count_groups keys ↔
  k ∈ keys ∧ n = length (filter (λ x, x = k) keys).
Proof.
  unfold count_groups. rewrite list_elem_of_fmap. split.
  - intros (k' & Heq & Hk). simplify_eq.
    split; [by apply elem_of_remove_dups | done].
  - intros [Hk ->]. exists k. by rewrite elem_of_remove_dups.
Qed.

Lemma sum_one_key (ks : list K) (x : K) :
  NoDup ks → x ∈ ks →
  sum_list ((λ k, if decide (x = k) then 1 else 0)%nat <$> ks) = 1%nat.
Proof.
  induction 1 as [|k ks Hk Hnd IH]; intros Hx; [by inv Hx|].
  rewrite fmap_cons. simpl. destruct (decide (x = k)) as [->|Hne].
  - rewrite (sum_list_fmap_same 0); [lia|].
    apply Forall_forall. intros y Hy. rewrite decide_False; [done|].
    intros ->. done.
  - rewrite IH; [done|]. by inv Hx.
Qed.

Lemma sum_counts (ks keys : list K) :
  NoDup ks → (∀ x, x ∈ keys → x ∈ ks) →
  sum_list ((λ k, length (filter (λ x, x = k) keys)) <$> ks) = length keys.
Proof.
  intros Hnd. induction keys as [|x keys IH]; intros Hsub.
  - rewrite (sum_list_fmap_same 0); [simpl; lia|]. by apply Forall_forall.
  - transitivity
      (sum_list ((λ k, (if decide (x = k) then 1 else 0)
                        + length (filter (λ y, y = k) keys))%nat <$> ks)).
    { f_equal. apply list_fmap_ext. intros _ k _.
      rewrite filter_cons. by destruct (decide (x = k)). }
    rewrite sum_list_fmap_plus, sum_one_key, IH; simpl; auto.
    + intros y Hy. apply Hsub. by right.
    + apply Hsub. left.
Qed.

(** Every value of the column, NULL included, is counted in exactly one
    group. *)
Lemma sum_count_groups (keys : list K) :
  sum_list (count_groups keys).*2 = length keys.
Proof.
  unfold count_groups. rewrite <- list_fmap_compose.
  rewrite <- (sum_counts (remove_dups keys) keys).
  - done.
  - apply NoDup_remove_dups.
  - intros x. by rewrite elem_of_remove_dups.
Qed.

Lemma count_groups_NoDup (keys : list K) : NoDup (count_groups keys).*1.
Proof. rewrite count_groups_keys. apply NoDup_remove_dups. Qed.

End groups.

Lemma length_filter_fmap {A B} (f : A → B) `{EqDecision B} (l : list A) (k : B) :
  length (filter (λ x, x = k) (f <$> l)) = length (filter (λ r, f r = k) l).
Proof.
  induction l as [|a l IH]; [done|]. rewrite fmap_cons, !filter_cons.
  destruct (decide (f a = k)); simpl; by rewrite IH.
Qed.

(** X8. [get_report_stats] leaves the database as it was.
    [total_reports] is the number of report rows.  Each of the two
    mappings has distinct keys, one for every status (every type) a
    report holds, NULL included, with the number of such reports under
    it; so the counts of either mapping add up to [total_reports]. *)
Theorem get_report_stats_spec (s : report_db) :
  ∃ st,
    get_report_stats s = (Return st, s) ∧
    total_reports st = length (reports s) ∧
    NoDup (reports_by_status st).*1 ∧
    NoDup (reports_by_type st).*1 ∧
    (∀ k n, (k, n) ∈ reports_by_status st ↔
       (0 < n)%nat ∧
       n = length (filter (λ r, Reports.status r = k) (reports s))) ∧
    (∀ k n, (k, n) ∈ reports_by_type st ↔
       (0 < n)%nat ∧
       n = length (filter (λ r, Reports.report_type r = k) (reports s))) ∧
    sum_list (reports_by_status st).*2 = total_reports st ∧
    sum_list (reports_by_type st).*2 = total_reports st.
Proof.
  rewrite get_report_stats_total. eexists. split; [reflexivity|]. simpl.
  rewrite !dict_of_NoDup by apply count_groups_NoDup.
  assert (Hcount : ∀ {B} `{EqDecision B} (f : Reports.row → B) k n,
            (k, n) ∈ count_groups (f <$> reports s) ↔
            (0 < n)%nat ∧ n = length (filter (λ r, f r = k) (reports s))).
  { intros B ? f k n. rewrite elem_of_count_groups, length_filter_fmap.
    split.
    - intros [Hk ->]. split; [|done].
      apply list_elem_of_fmap in Hk as (r & -> & Hr).
      assert (Hin : r ∈ filter (λ r0, f r0 = f r) (reports s))
        by (by apply list_elem_of_filter).
      destruct (filter _ (reports s)); [by inv Hin|simpl; lia].
    - intros [Hpos ->]. split; [|done].
      destruct (filter _ (reports s)) as [|r l] eqn:Hf; [simpl in Hpos; lia|].
      assert (Hin : r ∈ filter (λ r0, f r0 = k) (reports s))
        by (rewrite Hf; left).
      apply list_elem_of_filter in Hin as [<- Hr].
      by apply list_elem_of_fmap_2. }
  split; [done|]. split; [apply count_groups_NoDup|].
  split; [apply count_groups_NoDup|].
  split; [apply Hcount|]. split; [apply Hcount|].
  by rewrite !sum_count_groups, !length_fmap.
Qed.

(** ** More on the credential manager *)

Lemma get_user_by_username_eq username s :
  get_user_by_username username s =
    (Return
       match find (λ r, bool_decide (Users.username r = username)) (users s) with
       | Some r =>
           Some [("id", Some (PyInt (Users.id r)));
                 ("username", Some (PyStr (Users.username r)));
                 ("is_admin", Some (PyBool (Users.is_admin r)));
                 ("created_at", PyStr <$> Users.created_at r)]
       | None => None
       end, s).
Proof.
  unfold get_user_by_username, with_connection, mbind, db_op_bind,
    select_user_by_username.
  by destruct (find _ _).
Qed.

Lemma user_exists_eq s :
  user_exists s = (Return (bool_decide (0 < length (users s))%nat), s).
Proof. done. Qed.

(** X9. [change_password] returns false, and leaves the database as it
    was, when no user has the id and when the old password does not
    verify against that user's hash.  When the old password verifies and
    [bcrypt] hashes the new one it returns true and stores the new hash in
    that user's row, changing nothing else (id, username, admin flag, the
    other users, the clients); when [bcrypt] refuses the new password the
    [ValueError] is raised and the database is as it was.  It returns true
    in no other case. *)
Theorem change_password_spec hashpw checkpw (user_id : Z)
    (old_password new_password salt : string) (s : db) :
  wf_db s →
  ((∀ u, u ∈ users s → Users.id u ≠ user_id) →
     change_password hashpw checkpw user_id old_password new_password salt s
       = (Return false, s)) ∧
  (∀ u, u ∈ users s → Users.id u = user_id →
     (verify_password checkpw old_password (Users.password_hash u) = false →
        change_password hashpw checkpw user_id old_password new_password salt s
          = (Return false, s)) ∧
     (verify_password checkpw old_password (Users.password_hash u) = true →
        (∀ new_hash,
           hash_password hashpw new_password salt = Return new_hash →
           change_password hashpw checkpw user_id old_password new_password
             salt s
           = (Return true,
              {| users := (λ r, if bool_decide (Users.id r = user_id)
                                then Users.mk (Users.id r) (Users.username r)
                                       new_hash
                                       (Users.is_admin r) (Users.created_at r)
                                else r) <$> users s;
                 users_seq := users_seq s;
                 clients := clients s; clients_seq := clients_seq s |})) ∧
        (hash_password hashpw new_password salt = Raise ValueError →
           change_password hashpw checkpw user_id old_password new_password
             salt s
           = (Raise ValueError, s)))) ∧
  (∀ s',
     change_password hashpw checkpw user_id old_password new_password salt s
       = (Return true, s') →
     ∃ u new_hash,
       u ∈ users s ∧ Users.id u = user_id ∧
       verify_password checkpw old_password (Users.password_hash u) = true ∧
       hash_password hashpw new_password salt = Return new_hash) ∧
  (∀ r s',
     change_password hashpw checkpw user_id old_password new_password salt s
       = (r, s') →
     r ≠ Return true → s' = s).
Proof.
  intros Hwf. rewrite change_password_eq. unfold verify_password, hash_password.
  split; [|split; [|split]].
  - intros Hnone. by rewrite find_key_None.
  - intros u Hu <-.
    rewrite (find_key Users.id) by (apply Hwf || done). split.
    + by intros ->.
    + intros ->. split.
      * intros new_hash Hh. by destruct (hashpw _ _); simplify_eq.
      * intros Hh. by destruct (hashpw _ _).
  - intros s'. destruct (find _ _) as [u|] eqn:Hfind; [|done].
    apply find_some in Hfind as [Hu Hid].
    apply list_elem_of_In in Hu. apply bool_decide_eq_true in Hid.
    destruct (checkpw _ _) eqn:Hv; [|done].
    destruct (hashpw _ _) as [new_hash|] eqn:Hh; [|done].
    intros _. by exists u, new_hash.
  - intros r s'. destruct (find _ _) as [u|]; [|by intros [= <- <-]].
    destruct (checkpw _ _); [|by intros [= <- <-]].
    destruct (hashpw _ _); by intros [= <- <-].
Qed.

Lemma change_password_spec_witness :
  (∃ s', change_password example_hashpw example_checkpw 1 "secret" "hunter2"
           "n3ws" example_db = (Return true, s') ∧
         clients s' = clients example_db) ∧
  change_password example_hashpw example_checkpw 1 "guess" "hunter2"
    "n3ws" example_db = (Return false, example_db) ∧
  change_password example_hashpw example_checkpw 1 "secret" long_password
    "n3ws" example_db = (Raise ValueError, example_db) ∧
  change_password example_hashpw example_checkpw 5 "secret" "hunter2"
    "n3ws" example_db = (Return false, example_db).
Proof.
  split; [|split; [|split]].
  - destruct (change_password_spec example_hashpw example_checkpw 1 "secret"
                "hunter2" "n3ws" example_db wf_example_db)
      as (_ & Hu & _).
    destruct (Hu root root_in_example_db eq_refl) as [_ Htrue].
    destruct (Htrue ltac:(by vm_compute)) as [Hok _].
    eexists. split; [exact (Hok _ eq_refl)|]. done.
  - destruct (change_password_spec example_hashpw example_checkpw 1 "guess"
                "hunter2" "n3ws" example_db wf_example_db)
      as (_ & Hu & _).
    destruct (Hu root root_in_example_db eq_refl) as [Hfalse _].
    apply Hfalse. by vm_compute.
  - destruct (change_password_spec example_hashpw example_checkpw 1 "secret"
                long_password "n3ws" example_db wf_example_db)
      as (_ & Hu & _).
    destruct (Hu root root_in_example_db eq_refl) as [_ Htrue].
    destruct (Htrue ltac:(by vm_compute)) as [_ Hraise].
    apply Hraise. by vm_compute.
  - destruct (change_password_spec example_hashpw example_checkpw 5 "secret"
                "hunter2" "n3ws" example_db wf_example_db)
      as (Hnone & _).
    apply Hnone. intros u Hu. simpl in Hu.
    apply list_elem_of_singleton in Hu as ->. by vm_compute.
Defined.

(** X10. After [change_password] has returned true for a user,
    [bcrypt] has hashed the new password, and [authenticate_user] under
    that user's name accepts a password exactly when [checkpw] accepts it
    against that hash, and then returns the user's unchanged id, name and
    admin flag. *)
Theorem authenticate_user_after_change_password hashpw checkpw (u : Users.row)
    (old_password new_password salt password : string) (s s' : db) :
  wf_db s → u ∈ users s →
  change_password hashpw checkpw (Users.id u) old_password new_password salt s
    = (Return true, s') →
  ∃ new_hash,
    hash_password hashpw new_password salt = Return new_hash ∧
    authenticate_user checkpw (Users.username u) password s'
    = (Return (if verify_password checkpw password new_hash
               then Some [("id", PyInt (Users.id u));
                          ("username", PyStr (Users.username u));
                          ("is_admin", PyBool (Users.is_admin u))]
               else None), s').
Proof.
  intros Hwf Hu Hch.
  destruct (change_password_then_authenticate hashpw checkpw u old_password
              new_password salt password s s' Hwf Hu Hch)
    as (new_hash & Hh & Hauth).
  exists new_hash. unfold hash_password. by rewrite Hh.
Qed.

Lemma authenticate_user_after_change_password_witness :
  let s' := (change_password example_hashpw example_checkpw 1 "secret"
               "hunter2" "n3ws" example_db).2 in
  authenticate_user example_checkpw "root" "hunter2" s'
    = (Return (Some [("id", PyInt 1); ("username", PyStr "root");
                     ("is_admin", PyBool true)]), s') ∧
  authenticate_user example_checkpw "root" "secret" s' = (Return None, s').
Proof.
  intros s'.
  assert (Hrun : change_password example_hashpw example_checkpw
                   (Users.id root) "secret" "hunter2" "n3ws" example_db
                 = (Return true, s')) by reflexivity.
  split.
  - destruct (authenticate_user_after_change_password example_hashpw
                example_checkpw root "secret" "hunter2" "n3ws" "hunter2"
                example_db s' wf_example_db root_in_example_db Hrun)
      as (new_hash & Hh & Hauth).
    injection Hh as <-. exact Hauth.
  - destruct (authenticate_user_after_change_password example_hashpw
                example_checkpw root "secret" "hunter2" "n3ws" "secret"
                example_db s' wf_example_db root_in_example_db Hrun)
      as (new_hash & Hh & Hauth).
    injection Hh as <-. exact Hauth.
Defined.

(** X11. With a username no user holds and a password [bcrypt]
    hashes, [create_user] returns true and adds one user under an id no
    user had; [authenticate_user] under that name then accepts a password
    exactly when [checkpw] accepts it against the hash stored and returns
    the new id with the admin flag given, and [get_user_by_username]
    returns the same three values with the creation time.  With a
    password [bcrypt] refuses, [create_user] raises the [ValueError] and
    stores nothing. *)
Theorem create_user_then_authenticate_user hashpw checkpw
    (username password : string) (is_admin : bool) (salt ts : string) (s : db) :
  wf_db s → (∀ u, u ∈ users s → Users.username u ≠ username) →
  (∀ hashed, hash_password hashpw password salt = Return hashed →
     ∃ user_id s',
       create_user hashpw username password is_admin salt ts s
         = (Return true, s') ∧
       (user_id ∉ Users.id <$> users s) ∧
       users s' = users s ++ [Users.mk user_id username hashed is_admin
                                (Some ts)] ∧
       clients s' = clients s ∧
       (∀ candidate,
          authenticate_user checkpw username candidate s'
          = (Return (if verify_password checkpw candidate hashed
                     then Some [("id", PyInt user_id);
                                ("username", PyStr username);
                                ("is_admin", PyBool is_admin)]
                     else None), s')) ∧
       get_user_by_username username s'
         = (Return (Some [("id", Some (PyInt user_id));
                          ("username", Some (PyStr username));
                          ("is_admin", Some (PyBool is_admin));
                          ("created_at", Some (PyStr ts))]), s')) ∧
  (hash_password hashpw password salt = Raise ValueError →
     create_user hashpw username password is_admin salt ts s
       = (Raise ValueError, s)).
Proof.
  intros Hwf Hfree. rewrite create_user_eq. unfold hash_password.
  destruct (hashpw password salt) as [h|]; split; try done.
  intros hashed [= <-].
  rewrite bool_decide_eq_false_2.
  2:{ intros (u & Hu & Hin)%list_elem_of_fmap. by apply (Hfree u). }
  cbv zeta. set (user_id := next_rowid _ _).
  set (u := Users.mk user_id username h is_admin (Some ts)).
  eexists user_id, _. split; [reflexivity|].
  split; [apply next_rowid_fresh|]. split; [done|]. split; [done|].
  assert (Hfind : find (λ r, bool_decide (Users.username r = username))
                    (users s ++ [u]) = Some u).
  { apply (find_key_app_fresh Users.username (users s) u). exact Hfree. }
  split.
  - intros candidate. rewrite authenticate_user_eq. simpl. by rewrite Hfind.
  - rewrite get_user_by_username_eq. simpl. by rewrite Hfind.
Qed.

Lemma create_user_then_authenticate_user_witness :
  (∃ s',
     create_user example_hashpw "eva" "pa55" false "5alt" "2024-04-01 08:00:00"
       example_db = (Return true, s') ∧
     authenticate_user example_checkpw "eva" "pa55" s'
       = (Return (Some [("id", PyInt 2); ("username", PyStr "eva");
                        ("is_admin", PyBool false)]), s') ∧
     authenticate_user example_checkpw "eva" "pa56" s' = (Return None, s')) ∧
  create_user example_hashpw "eva" long_password false "5alt"
    "2024-04-01 08:00:00" example_db = (Raise ValueError, example_db).
Proof.
  assert (Hfree : ∀ u, u ∈ users example_db → Users.username u ≠ "eva").
  { intros u Hu. simpl in Hu. apply list_elem_of_singleton in Hu as ->.
    by vm_compute. }
  split.
  - destruct (create_user_then_authenticate_user example_hashpw
                example_checkpw "eva" "pa55" false "5alt"
                "2024-04-01 08:00:00" example_db wf_example_db Hfree)
      as [Hok _].
    destruct (Hok (example_digest "pa55" "5alt") eq_refl)
      as (user_id & s' & Hrun & _ & _ & _ & Hauth & _).
    assert (user_id = 2) as ->.
    { assert (H2 : create_user example_hashpw "eva" "pa55" false "5alt"
                     "2024-04-01 08:00:00" example_db
                   = (Return true,
                      (create_user example_hashpw "eva" "pa55" false "5alt"
                         "2024-04-01 08:00:00" example_db).2)) by reflexivity.
      rewrite H2 in Hrun. injection Hrun as <-.
      pose proof (Hauth "pa55") as H. vm_compute in H. by injection H as ->. }
    exists s'. split; [exact Hrun|]. split.
    + exact (Hauth "pa55").
    + exact (Hauth "pa56").
  - destruct (create_user_then_authenticate_user example_hashpw
                example_checkpw "eva" long_password false "5alt"
                "2024-04-01 08:00:00" example_db wf_example_db Hfree)
      as [_ Hraise].
    apply Hraise. by vm_compute.
Defined.

(** X12. [get_user_by_username] returns [None] exactly when no user has
    the name; otherwise its dictionary has the keys id, username,
    is_admin and created_at, never the hash.  Whenever
    [authenticate_user] succeeds, the dictionary it returns holds the same
    id, username and admin flag as the one [get_user_by_username] returns
    for that name. *)
Theorem get_user_by_username_spec checkpw (username : string) (s : db) :
  ∃ found,
    get_user_by_username username s = (Return found, s) ∧
    (found = None ↔ ∀ u, u ∈ users s → Users.username u ≠ username) ∧
    (∀ d, found = Some d →
       d.*1 = ["id"; "username"; "is_admin"; "created_at"]) ∧
    (∀ password summary,
       authenticate_user checkpw username password s = (Return (Some summary), s) →
       ∃ d, found = Some d ∧
            take 3 d = (λ kv, (kv.1, Some kv.2)) <$> summary).
Proof.
  rewrite get_user_by_username_eq. eexists. split; [reflexivity|].
  destruct (find _ _) as [r|] eqn:Hfind.
  - split; [|split].
    + split; [done|]. intros Hnone. exfalso.
      apply find_some in Hfind as [Hr Hn%bool_decide_eq_true].
      apply list_elem_of_In in Hr. by apply (Hnone r).
    + by intros d [= <-].
    + intros password summary. rewrite authenticate_user_eq, Hfind.
      destruct (checkpw _ _); [|done]. intros [= <-]. by eexists.
  - split; [|split].
    + split; [|done]. intros _ u Hu.
      eapply find_none in Hfind; [|by apply list_elem_of_In].
      by apply bool_decide_eq_false in Hfind.
    + done.
    + intros password summary. by rewrite authenticate_user_eq, Hfind.
Qed.

(** ** The first run *)

(** X13. The first-run step of [main] leaves a database that has a
    user as it was.  On one that has none it stores the administrator
    entered, as the only user, when [bcrypt] hashes the password, and
    raises the [ValueError], storing nothing, when [bcrypt] refuses it.
    So whenever the step returns, which is when the shell is started, at
    least one user exists ([user_exists] returns true), and the clients
    are as before. *)
Theorem first_run_spec hashpw (username password salt ts : string) (s : db) :
  (users s ≠ [] → first_run hashpw username password salt ts s = (Return tt, s)) ∧
  (users s = [] →
     (∀ hashed, hash_password hashpw password salt = Return hashed →
        ∃ user_id s',
          first_run hashpw username password salt ts s = (Return tt, s') ∧
          users s' = [Users.mk user_id username hashed true (Some ts)] ∧
          clients s' = clients s) ∧
     (hash_password hashpw password salt = Raise ValueError →
        first_run hashpw username password salt ts s = (Raise ValueError, s))) ∧
  (∀ s', first_run hashpw username password salt ts s = (Return tt, s') →
         user_exists s' = (Return true, s') ∧ clients s' = clients s).
Proof.
  unfold first_run, mbind, db_op_bind. rewrite user_exists_eq.
  unfold hash_password.
  destruct (users s) as [|u us] eqn:Hus.
  - simpl. rewrite create_user_eq, Hus. simpl.
    destruct (hashpw password salt) as [h|].
    + split; [done|]. split.
      * intros _. split; [|done]. intros hashed [= <-]. by eexists _, _.
      * intros s' [= <-]. rewrite user_exists_eq. done.
    + split; [done|]. split; [done|]. done.
  - simpl. split; [done|]. split; [done|].
    intros s' [= <-]. rewrite user_exists_eq, Hus. done.
Qed.

Lemma first_run_spec_witness :
  first_run example_hashpw "adm" "pw" "5alt" "2024-01-01 09:00:00" example_db
    = (Return tt, example_db) ∧
  (∃ s', first_run example_hashpw "adm" "pw" "5alt" "2024-01-01 09:00:00"
           empty_db = (Return tt, s') ∧
         users s' = [Users.mk 1 "adm" (example_digest "pw" "5alt") true
                       (Some "2024-01-01 09:00:00")] ∧
         user_exists s' = (Return true, s')) ∧
  first_run example_hashpw "adm" long_password "5alt" "2024-01-01 09:00:00"
    empty_db = (Raise ValueError, empty_db).
Proof.
  split; [|split].
  - destruct (first_run_spec example_hashpw "adm" "pw" "5alt"
                "2024-01-01 09:00:00" example_db) as (H & _).
    by apply H.
  - destruct (first_run_spec example_hashpw "adm" "pw" "5alt"
                "2024-01-01 09:00:00" empty_db) as (_ & H & Hret).
    destruct (H eq_refl) as [Hok _].
    destruct (Hok (example_digest "pw" "5alt") eq_refl)
      as (user_id & s' & Hrun & Husers & _).
    exists s'. split; [exact Hrun|]. split; [|by apply Hret].
    assert (H1 : first_run example_hashpw "adm" "pw" "5alt"
                   "2024-01-01 09:00:00" empty_db
                 = (Return tt,
                    (first_run example_hashpw "adm" "pw" "5alt"
                       "2024-01-01 09:00:00" empty_db).2)) by reflexivity.
    rewrite H1 in Hrun. injection Hrun as <-. reflexivity.
  - destruct (first_run_spec example_hashpw "adm" long_password "5alt"
                "2024-01-01 09:00:00" empty_db) as (_ & H & _).
    destruct (H eq_refl) as [_ Hraise]. apply Hraise. by vm_compute.
Defined.

(** ** The client menus of the shell *)

Lemma or_None_not_blank (answer : string) : or_None answer ≠ Some "".
Proof. unfold or_None. case_decide; congruence. Qed.

Lemma add_client_eq name email phone company address city country ts s :
  MainMenu.add_client name email phone company address city country ts s =
    if bool_decide (email ∈ Clients.email <$> clients s)
    then (Return (inr IntegrityError), s)
    else
      let rowid := next_rowid (clients_seq s) (Clients.id <$> clients s) in
      (Return (inl rowid),
       {| users := users s; users_seq := users_seq s;
          clients := clients s ++
            [Clients.mk rowid name email (or_None phone) (or_None company)
               (or_None address) (or_None city) (or_None country)
               (Some ts) (Some ts)];
          clients_seq := rowid |}).
Proof.
  unfold MainMenu.add_client, try_except. rewrite create_client_eq.
  by case_bool_decide.
Qed.

(** X14. The add-client menu never raises.  When a client holds the
    email it reports [IntegrityError] and the database is as it was.
    Otherwise it reports a new id under which [get_client] finds the name
    and email entered and, for each optional field, NULL when the answer
    was empty and the answer otherwise.  If no client had an empty string
    in an optional field before, none has one after. *)
Theorem add_client_spec
    (name email phone company address city country ts : string) (s : db) :
  ∃ shown s',
    MainMenu.add_client name email phone company address city country ts s
      = (Return shown, s') ∧
    (email ∈ Clients.email <$> clients s →
       shown = inr IntegrityError ∧ s' = s) ∧
    (email ∉ Clients.email <$> clients s →
       ∃ client_id,
         shown = inl client_id ∧
         get_client client_id s'
         = (Return (Some (Clients.mk client_id name email
                            (if decide (phone = "") then None else Some phone)
                            (if decide (company = "") then None else Some company)
                            (if decide (address = "") then None else Some address)
                            (if decide (city = "") then None else Some city)
                            (if decide (country = "") then None else Some country)
                            (Some ts) (Some ts))), s')) ∧
    ((∀ r, r ∈ clients s → no_blank r) → ∀ r, r ∈ clients s' → no_blank r).
Proof.
  rewrite add_client_eq. case_bool_decide as Hin.
  - eexists _, _. split; [reflexivity|]. split; [done|]. split; [done|]. done.
  - cbv zeta. set (rowid := next_rowid _ _).
    set (row := Clients.mk rowid name email (or_None phone) (or_None company)
                  (or_None address) (or_None city) (or_None country)
                  (Some ts) (Some ts)).
    eexists _, _. split; [reflexivity|]. split; [done|]. split.
    + intros _. exists rowid. split; [done|].
      rewrite get_client_eq. simpl. f_equal. f_equal.
      apply (find_key_app_fresh Clients.id (clients s) row).
      intros o Ho Heq.
      apply (next_rowid_fresh (clients_seq s) (Clients.id <$> clients s)).
      fold rowid. change rowid with (Clients.id row). rewrite <- Heq.
      by apply list_elem_of_fmap_2.
    + intros Hall r Hr. simpl in Hr.
      apply elem_of_app in Hr as [Hr|Hr]; [by apply Hall|].
      apply list_elem_of_singleton in Hr as ->.
      repeat split; apply or_None_not_blank.
Qed.

Lemma add_client_spec_witness :
  ∃ s',
    MainMenu.add_client "Eva Ruiz" "eva@x.com" "" "Acme" "" "Lima" ""
      "2024-04-01 08:00:00" example_db = (Return (inl 3), s') ∧
    get_client 3 s'
    = (Return (Some (Clients.mk 3 "Eva Ruiz" "eva@x.com" None (Some "Acme") None
                       (Some "Lima") None (Some "2024-04-01 08:00:00")
                       (Some "2024-04-01 08:00:00"))), s') ∧
    MainMenu.add_client "Ana" "ana@x.com" "" "" "" "" "" "2024-04-01 08:00:00"
      example_db = (Return (inr IntegrityError), example_db).
Proof.
  destruct (add_client_spec "Eva Ruiz" "eva@x.com" "" "Acme" "" "Lima" ""
              "2024-04-01 08:00:00" example_db)
    as (shown & s' & Hrun & _ & Hnew & _).
  assert (Hfree : "eva@x.com" ∉ Clients.email <$> clients example_db).
  { simpl. intros Hin.
    repeat (apply elem_of_cons in Hin as [Hin|Hin]; [done|]).
    by apply not_elem_of_nil in Hin. }
  destruct (Hnew Hfree) as (client_id & -> & Hget).
  assert (client_id = 3) as ->.
  { assert (H3 : MainMenu.add_client "Eva Ruiz" "eva@x.com" "" "Acme" "" "Lima"
                   "" "2024-04-01 08:00:00" example_db
                 = (Return (inl 3),
                    (MainMenu.add_client "Eva Ruiz" "eva@x.com" "" "Acme" ""
                       "Lima" "" "2024-04-01 08:00:00" example_db).2))
      by reflexivity.
    rewrite H3 in Hrun. by injection Hrun as <-. }
  exists s'. split; [exact Hrun|]. split; [exact Hget|].
  destruct (add_client_spec "Ana" "ana@x.com" "" "" "" "" ""
              "2024-04-01 08:00:00" example_db)
    as (shown & s'' & Hrun' & Hdup & _ & _).
  assert (Htaken : "ana@x.com" ∈ Clients.email <$> clients example_db)
    by (simpl; left).
  destruct (Hdup Htaken) as [-> ->]. exact Hrun'.
Defined.

(** When [update_client] does not return true it has changed nothing. *)
Lemma update_client_not_true client_id (kwargs : gmap column (option string))
    now s r s' :
  wf_db s → update_client client_id kwargs now s = (r, s') →
  r ≠ Return true → s' = s.
Proof.
  intros Hwf.
  destruct (decide (kwargs = ∅)) as [He|Hne].
  { rewrite update_client_empty by done. by intros [= <- <-]. }
  destruct (find_key_cases Clients.id (clients s) client_id)
    as [(c & Hc & Hid) | Hnone].
  2:{ rewrite update_client_no_row by done. by intros [= <- <-]. }
  destruct (decide (kwargs !! col_name = Some None)) as [Hn|Hn].
  { rewrite (update_client_violation _ _ _ _ c) by auto. by intros [= <- <-]. }
  destruct (decide (kwargs !! col_email = Some None)) as [Hm|Hm].
  { rewrite (update_client_violation _ _ _ _ c) by auto. by intros [= <- <-]. }
  assert (Hcases : (∃ e o, kwargs !! col_email = Some (Some e) ∧ o ∈ clients s ∧
                           Clients.id o ≠ client_id ∧ Clients.email o = e) ∨
                   (∀ e o, kwargs !! col_email = Some (Some e) → o ∈ clients s →
                           Clients.id o ≠ client_id → Clients.email o ≠ e)).
  { destruct (kwargs !! col_email) as [[e|]|] eqn:Ee; [|by right..].
    destruct (email_taken_by_other e client_id (clients s)) eqn:Ht.
    - left. apply email_taken_by_other_spec in Ht as (o & ? & ? & ?).
      by exists e, o.
    - right. intros e' o [= <-] Ho Hoid Hoe.
      assert (email_taken_by_other e client_id (clients s) = true)
        by (apply email_taken_by_other_spec; by exists o).
      congruence. }
  destruct Hcases as [Hbad | Hfree].
  { rewrite (update_client_violation _ _ _ _ c) by auto. by intros [= <- <-]. }
  destruct (update_client_hit client_id kwargs now s c)
    as (c' & -> & _); try done.
  by intros [= <- <-].
Qed.

(** The keywords [edit_client] passes. *)
Lemma edit_kwargs_lookup (n e p co a ci cy : string) (col : column) :
  (<[col_name := Some n]>
   (<[col_email := Some e]>
    (<[col_phone := or_None p]>
     (<[col_company := or_None co]>
      (<[col_address := or_None a]>
       (<[col_city := or_None ci]>
        (<[col_country := or_None cy]> (∅ : gmap column (option string)))))))))
    !! col
  = match col with
    | col_name => Some (Some n)
    | col_email => Some (Some e)
    | col_phone => Some (or_None p)
    | col_company => Some (or_None co)
    | col_address => Some (or_None a)
    | col_city => Some (or_None ci)
    | col_country => Some (or_None cy)
    | col_updated_at => None
    end.
Proof. destruct col; by simplify_map_eq. Qed.

Lemma edit_client_eq markup client_id n e p co a ci cy now s :
  MainMenu.edit_client markup client_id n e p co a ci cy now s =
    if bool_decide (- 2 ^ 63 ≤ client_id < 2 ^ 63)
    then
      match find (λ r, bool_decide (Clients.id r = client_id)) (clients s) with
      | None => (Return NotFound, s)
      | Some c =>
          if markup (String.append "[green]Editando cliente: "
                       (String.append (Clients.name c) "[/green]"))
          then
            match update_client client_id
                    (<[col_name := Some n]>
                     (<[col_email := Some e]>
                      (<[col_phone := or_None p]>
                       (<[col_company := or_None co]>
                        (<[col_address := or_None a]>
                         (<[col_city := or_None ci]>
                          (<[col_country := or_None cy]> ∅)))))))
                    now s with
            | (Return true, s') => (Return Updated, s')
            | (Return false, s') => (Return NotUpdated, s')
            | (Raise x, s') => (Return (UpdateFailed x), s')
            end
          else (Raise MarkupError, s)
      end
    else (Raise OverflowError, s).
Proof.
  unfold MainMenu.edit_client, mbind, db_op_bind, call, bind_int.
  case_bool_decide; [|done]. rewrite get_client_eq. simpl.
  destruct (find _ _); [|done]. unfold console_print.
  destruct (markup _); [|done]. unfold try_except.
  by destruct (update_client _ _ _ _) as [[[]|]].
Qed.

(** X15. The edit-client menu.  An id outside the 64-bit range makes the
    lookup raise [OverflowError]; with an id in range that no client has
    the menu reports that the client was not found; in both cases nothing
    changes.  With the id of a client, the banner with the client's name
    raises [MarkupError] when [rich] does not read it as markup, and
    nothing changes.  Otherwise, when another client holds the email
    entered the menu reports [IntegrityError] and changes nothing, and
    when none does it reports success and has updated that one row: name
    and email as entered, each optional field NULL for an empty answer and
    the answer otherwise, [updated_at] stamped, [created_at] and every
    other row as before.  Whatever the outcome, if no client had an empty
    string in an optional field before, none has one after. *)
Theorem edit_client_spec (markup : string → bool) (client_id : Z)
    (new_name new_email new_phone new_company new_address new_city
       new_country now : string) (s : db) :
  wf_db s →
  (¬ (- 2 ^ 63 ≤ client_id < 2 ^ 63) →
     MainMenu.edit_client markup client_id new_name new_email new_phone
       new_company new_address new_city new_country now s
     = (Raise OverflowError, s)) ∧
  (- 2 ^ 63 ≤ client_id < 2 ^ 63 →
     ((∀ r, r ∈ clients s → Clients.id r ≠ client_id) →
        MainMenu.edit_client markup client_id new_name new_email new_phone
          new_company new_address new_city new_country now s
        = (Return NotFound, s)) ∧
     (∀ c, c ∈ clients s → Clients.id c = client_id →
        (markup (String.append "[green]Editando cliente: "
                   (String.append (Clients.name c) "[/green]")) = false →
           MainMenu.edit_client markup client_id new_name new_email new_phone
             new_company new_address new_city new_country now s
           = (Raise MarkupError, s)) ∧
        (markup (String.append "[green]Editando cliente: "
                   (String.append (Clients.name c) "[/green]")) = true →
           ((∃ o, o ∈ clients s ∧ Clients.id o ≠ client_id ∧
                  Clients.email o = new_email) →
              MainMenu.edit_client markup client_id new_name new_email
                new_phone new_company new_address new_city new_country now s
              = (Return (UpdateFailed IntegrityError), s)) ∧
           ((∀ o, o ∈ clients s → Clients.id o ≠ client_id →
                  Clients.email o ≠ new_email) →
              MainMenu.edit_client markup client_id new_name new_email
                new_phone new_company new_address new_city new_country now s
              = (Return Updated,
                 {| users := users s; users_seq := users_seq s;
                    clients :=
                      (λ r, if bool_decide (Clients.id r = client_id)
                            then Clients.mk client_id new_name new_email
                                   (or_None new_phone) (or_None new_company)
                                   (or_None new_address) (or_None new_city)
                                   (or_None new_country)
                                   (Clients.created_at c) (Some now)
                            else r) <$> clients s;
                    clients_seq := clients_seq s |}))))) ∧
  (∀ r s',
     MainMenu.edit_client markup client_id new_name new_email new_phone
       new_company new_address new_city new_country now s = (r, s') →
     (∀ c, c ∈ clients s → no_blank c) → ∀ c, c ∈ clients s' → no_blank c).
Proof.
  intros Hwf. rewrite edit_client_eq.
  set (kw := <[col_name := _]> _).
  assert (Hkw : kw ≠ ∅).
  { intros He. assert (H : kw !! col_name = None) by (by rewrite He).
    unfold kw in H. by rewrite edit_kwargs_lookup in H. }
  split; [|split].
  - intros Hout. by rewrite bool_decide_eq_false_2.
  - intros Hin. rewrite (bool_decide_eq_true_2 _ Hin). split.
    + intros Hnone. by rewrite find_key_None.
    + intros c Hc <-.
      rewrite (find_key Clients.id) by (apply Hwf || done). split.
      * by intros ->.
      * intros ->. split.
        -- intros (o & Ho & Hoid & Hoe).
           rewrite (update_client_violation _ _ _ _ c); [done..|].
           right. right. exists new_email, o. split; [|done].
           unfold kw. by rewrite edit_kwargs_lookup.
        -- intros Hfree.
           destruct (update_client_hit (Clients.id c) kw now s c)
             as (c' & -> & Hid' & Hcr & Hup & Hcols); try done.
           { unfold kw. rewrite edit_kwargs_lookup.
             intros e o [= <-]. apply Hfree. }
           pose proof (Hcols col_name ltac:(done)) as Hn.
           pose proof (Hcols col_email ltac:(done)) as He.
           pose proof (Hcols col_phone ltac:(done)) as Hp.
           pose proof (Hcols col_company ltac:(done)) as Hco.
           pose proof (Hcols col_address ltac:(done)) as Ha.
           pose proof (Hcols col_city ltac:(done)) as Hci.
           pose proof (Hcols col_country ltac:(done)) as Hcy.
           unfold kw in *. rewrite edit_kwargs_lookup in *.
           destruct c'. simpl in *. by simplify_eq.
  - intros r s'. case_bool_decide; [|by intros [= <- <-]].
    destruct (find _ _) as [c0|]; [|by intros [= <- <-]].
    destruct (markup _); [|by intros [= <- <-]].
    destruct (update_client client_id kw now s) as [[[]|x] s1] eqn:Hrun.
    + destruct (update_client_true_inv _ _ _ _ _ Hwf Hrun)
        as (c & c' & Hc & Hid & -> & Hid' & Hcr & Hup & Hcols).
      intros [= <- <-] Hall r1 Hr. simpl in Hr.
      apply list_elem_of_fmap in Hr as (r0 & -> & Hr0).
      case_bool_decide; [|by apply Hall].
      pose proof (Hcols col_phone ltac:(done)) as Hp.
      pose proof (Hcols col_company ltac:(done)) as Hco.
      pose proof (Hcols col_address ltac:(done)) as Ha.
      pose proof (Hcols col_city ltac:(done)) as Hci.
      pose proof (Hcols col_country ltac:(done)) as Hcy.
      unfold kw in *. rewrite edit_kwargs_lookup in *.
      destruct c'. simpl in *. subst.
      repeat split; apply or_None_not_blank.
    + apply update_client_not_true in Hrun as ->; [|done..].
      by intros [= <- <-].
    + apply update_client_not_true in Hrun as ->; [|done..].
      by intros [= <- <-].
Qed.

Lemma edit_client_spec_witness :
  MainMenu.edit_client example_markup (2 ^ 63) "X" "x@x.com" "" "" "" "" ""
    "2024-02-01T09:00:00" example_db = (Raise OverflowError, example_db) ∧
  MainMenu.edit_client example_markup 7 "X" "x@x.com" "" "" "" "" ""
    "2024-02-01T09:00:00" example_db = (Return NotFound, example_db) ∧
  MainMenu.edit_client example_markup 1 "Ana G." "bob@x.com" "" "" "" "" ""
    "2024-02-01T09:00:00" example_db
    = (Return (UpdateFailed IntegrityError), example_db) ∧
  (∃ s', MainMenu.edit_client example_markup 1 "Ana G." "ana@x.com" "555-0100"
           "" "" "Lima" "" "2024-02-01T09:00:00" example_db
           = (Return Updated, s') ∧
         clients s'
         = [Clients.mk 1 "Ana G." "ana@x.com" (Some "555-0100") None None
              (Some "Lima") None (Some "2024-01-01 10:00:00")
              (Some "2024-02-01T09:00:00"); bob]) ∧
  (let s := (create_client "[/b]" "c@x.com" None None None None None
               "2024-03-01 12:00:00" example_db).2 in
   MainMenu.edit_client example_markup 3 "Cy" "c@x.com" "" "" "" "" ""
     "2024-03-02 12:00:00" s = (Raise MarkupError, s)).
Proof.
  assert (Hrange : ∀ n, (n =? 1) || (n =? 3) || (n =? 7) = true →
                        - 2 ^ 63 ≤ n < 2 ^ 63) by (intros n; lia).
  split; [|split; [|split; [|split]]].
  - destruct (edit_client_spec example_markup (2 ^ 63) "X" "x@x.com" "" "" ""
                "" "" "2024-02-01T09:00:00" example_db wf_example_db)
      as (Hout & _).
    apply Hout. lia.
  - destruct (edit_client_spec example_markup 7 "X" "x@x.com" "" "" "" "" ""
                "2024-02-01T09:00:00" example_db wf_example_db)
      as (_ & Hin & _).
    destruct (Hin (Hrange 7 eq_refl)) as [Hnone _]. apply Hnone.
    intros r Hr. simpl in Hr.
    apply elem_of_cons in Hr as [->|Hr]; [by vm_compute|].
    apply elem_of_cons in Hr as [->|Hr]; [by vm_compute|].
    by apply not_elem_of_nil in Hr.
  - destruct (edit_client_spec example_markup 1 "Ana G." "bob@x.com" "" "" ""
                "" "" "2024-02-01T09:00:00" example_db wf_example_db)
      as (_ & Hin & _).
    destruct (Hin (Hrange 1 eq_refl)) as [_ Hfound].
    destruct (Hfound ana ana_in_example_db eq_refl) as [_ Hok].
    destruct (Hok ltac:(by vm_compute)) as [Htaken _].
    apply Htaken. exists bob. split; [|by vm_compute].
    simpl. right. left.
  - destruct (edit_client_spec example_markup 1 "Ana G." "ana@x.com"
                "555-0100" "" "" "Lima" "" "2024-02-01T09:00:00" example_db
                wf_example_db)
      as (_ & Hin & _).
    destruct (Hin (Hrange 1 eq_refl)) as [_ Hfound].
    destruct (Hfound ana ana_in_example_db eq_refl) as [_ Hok].
    destruct (Hok ltac:(by vm_compute)) as [_ Hfree].
    eexists. split.
    + apply Hfree. intros o Ho. simpl in Ho.
      apply elem_of_cons in Ho as [->|Ho]; [by vm_compute|].
      apply elem_of_cons in Ho as [->|Ho]; [by vm_compute|].
      by apply not_elem_of_nil in Ho.
    + reflexivity.
  - intros s.
    assert (Hwf : wf_db s).
    { eapply wf_create_client; [apply wf_example_db|].
      unfold s. apply surjective_pairing. }
    destruct (edit_client_spec example_markup 3 "Cy" "c@x.com" "" "" "" "" ""
                "2024-03-02 12:00:00" s Hwf)
      as (_ & Hin & _).
    destruct (Hin (Hrange 3 eq_refl)) as [_ Hfound].
    destruct (Hfound (Clients.mk 3 "[/b]" "c@x.com" None None None None None
                        (Some "2024-03-01 12:00:00")
                        (Some "2024-03-01 12:00:00"))) as [Hbad _].
    + vm_compute. right. right. left.
    + reflexivity.
    + apply Hbad. by vm_compute.
Defined.

(** X16. In a database where no client has an empty string in an
    optional field (as the shell's menus keep it), the empty string is no
    key of [clients_by_country] or [clients_by_city]: a client entered
    without a country or city is counted under no name. *)
Theorem get_client_stats_no_blank_key (s : db) (st : client_stats) :
  (∀ r, r ∈ clients s → no_blank r) →
  (get_client_stats s).1 = Return st →
  ("" ∉ (clients_by_country st).*1) ∧ ("" ∉ (clients_by_city st).*1).
Proof.
  intros Hall. rewrite get_client_stats_eq. simpl. intros [= <-]. simpl.
  assert (Hcity : NoDup (take 10 (order_by_count_desc
                    (group_by_count (omap Clients.city (clients s))))).*1).
  { rewrite fmap_take. eapply sublist_NoDup; [apply ordered_groups_NoDup|].
    apply sublist_take. }
  rewrite !dict_NoDup by (done || apply ordered_groups_NoDup).
  split.
  - rewrite order_by_count_desc_perm, group_by_count_keys.
    rewrite elem_of_remove_dups, list_elem_of_omap.
    intros (r & Hr & Hc). by destruct (Hall r Hr) as (_ & _ & _ & _ & ?).
  - rewrite fmap_take. intros Hin%subseteq_take. revert Hin.
    rewrite order_by_count_desc_perm, group_by_count_keys.
    rewrite elem_of_remove_dups, list_elem_of_omap.
    intros (r & Hr & Hc). by destruct (Hall r Hr) as (_ & _ & _ & ? & _).
Qed.

Lemma no_blank_example_db : ∀ r, r ∈ clients example_db → no_blank r.
Proof.
  intros r Hr. simpl in Hr.
  apply elem_of_cons in Hr as [->|Hr]; [by repeat split|].
  apply elem_of_cons in Hr as [->|Hr]; [by repeat split|].
  by apply not_elem_of_nil in Hr.
Qed.

Lemma get_client_stats_no_blank_key_witness :
  ∃ st, (get_client_stats example_db).1 = Return st ∧
        ("" ∉ (clients_by_country st).*1) ∧ ("" ∉ (clients_by_city st).*1).
Proof.
  eexists. split; [reflexivity|].
  exact (get_client_stats_no_blank_key example_db _ no_blank_example_db eq_refl).
Defined.

(** ** The PDF builders *)

Lemma or_default_not_empty (v : option string) (d : string) :
  d ≠ "" → or_default v d ≠ "".
Proof. intros Hd. unfold or_default. destruct v; [case_decide|]; done. Qed.

Lemma or_default_absent (v : option string) (d : string) :
  v = None ∨ v = Some "" → or_default v d = d.
Proof. by intros [-> | ->]. Qed.

(** X17. The table of the PDF client list has the six-column header and
    one six-cell row per client, in the order given.  Every cell is a
    string, and no Email, Teléfono, Empresa or Ciudad cell is empty: where
    the client has NULL or the empty string the cell reads ["N/A"]
    (unlike the CSV and Excel exports, which leave it empty). *)
Theorem clients_list_pdf_table_spec (clients : list Clients.row)
    (generated_at : string) :
  ∃ data,
    generate_clients_list_pdf clients generated_at !! 2%nat = Some (Table data) ∧
    data !! 0%nat = Some [CStr "ID"; CStr "Nombre"; CStr "Email";
                          CStr "Teléfono"; CStr "Empresa"; CStr "Ciudad"] ∧
    length data = S (length clients) ∧
    (∀ row, row ∈ data →
       length row = 6%nat ∧
       ∀ i c, row !! i = Some c →
              ∃ text, c = CStr text ∧ ((2 ≤ i)%nat → text ≠ "")) ∧
    (∀ i client, clients !! i = Some client →
       ∃ email phone company city,
         data !! S i = Some [CStr (pretty (Clients.id client));
                             CStr (Clients.name client);
                             CStr email; CStr phone; CStr company; CStr city] ∧
         (Clients.phone client = None ∨ Clients.phone client = Some "" →
            phone = "N/A") ∧
         (Clients.company client = None ∨ Clients.company client = Some "" →
            company = "N/A") ∧
         (Clients.city client = None ∨ Clients.city client = Some "" →
            city = "N/A") ∧
         (Clients.email client = "" → email = "N/A")).
Proof.
  eexists. split; [reflexivity|]. unfold clients_list_table_data.
  split; [done|]. split; [by rewrite length_cons, length_fmap|]. split.
  - intros row Hrow. apply elem_of_cons in Hrow as [->|Hrow].
    + split; [done|]. intros i c Hc.
      do 6 (destruct i as [|i]; [simplify_eq/=; by eexists|]). done.
    + apply list_elem_of_fmap in Hrow as (client & -> & _).
      split; [done|]. intros i c Hc.
      destruct i as [|i]; [simplify_eq/=; eexists; split; [done|lia]|].
      destruct i as [|i]; [simplify_eq/=; eexists; split; [done|lia]|].
      do 4 (destruct i as [|i];
            [simplify_eq/=; eexists; split; [done|];
             intros _; first [by apply or_default_not_empty
                             |by case_decide]|]).
      done.
  - intros i client Hi. eexists _, _, _, _. split.
    + simpl. rewrite list_lookup_fmap, Hi. reflexivity.
    + repeat split; try apply or_default_absent.
      intros ->. done.
Qed.

(** X18. The client report always carries the ten-row client table; it
    carries the "Datos del Reporte" heading and the field table, with one
    row per field after the header, exactly when [report_data] is a
    non-empty list, and neither when it is [None] or empty.  No value
    cell of a field table row is empty. *)
Theorem client_report_pdf_sections (client_data : Clients.row)
    (report_data : option (list report_field)) (generated_at : string) :
  let story := generate_client_report_pdf client_data report_data generated_at in
  story !! 2%nat = Some (Table (client_info client_data)) ∧
  length (client_info client_data) = 10%nat ∧
  (Paragraph "Datos del Reporte" "Heading2" ∈ story ↔
     ∃ d ds, report_data = Some (d :: ds)) ∧
  (∀ fields, report_data = Some fields → fields ≠ [] →
     story !! 6%nat = Some (Table (report_table_data fields)) ∧
     length (report_table_data fields) = S (length fields) ∧
     ∀ i data, fields !! i = Some data →
       ∃ value, report_table_data fields !! S i
                = Some [CStr (field_name data); CStr value] ∧
                value ≠ "") ∧
  (report_data = None ∨ report_data = Some [] →
     ∀ data, Table data ∈ story → data = client_info client_data).
Proof.
  intros story. unfold story, generate_client_report_pdf.
  split; [by destruct report_data as [[|]|]|]. split; [done|]. split; [|split].
  - split.
    + destruct report_data as [[|d ds]|]; simpl.
      * intros H. repeat (apply elem_of_cons in H as [H|H]; [done|]).
        by apply not_elem_of_nil in H.
      * intros _. by exists d, ds.
      * intros H. repeat (apply elem_of_cons in H as [H|H]; [done|]).
        by apply not_elem_of_nil in H.
    + intros (d & ds & ->). simpl. do 4 right. left.
  - intros fields -> Hne. destruct fields as [|d ds]; [done|].
    split; [done|].
    split; [unfold report_table_data; by rewrite length_cons, length_fmap|].
    intros i data Hi. eexists. split.
    + unfold report_table_data. rewrite lookup_cons, list_lookup_fmap, Hi.
      reflexivity.
    + by apply or_default_not_empty.
  - intros [-> | ->] data H; simpl in H;
      repeat (apply elem_of_cons in H as [H|H]; [by simplify_eq|]);
      by apply not_elem_of_nil in H.
Qed.

Lemma string_length_append (a b : string) :
  String.length (String.append a b) = (String.length a + String.length b)%nat.
Proof.
  induction a as [|x a IH]; [done|].
  change (String x a +:+ b) with (String x (a +:+ b)). simpl. by rewrite IH.
Qed.

Lemma string_append_inj_r (a b r : string) :
  String.append a r = String.append b r → a = b.
Proof.
  revert b. induction a as [|x a IH]; intros [|y b] H; simpl in *.
  - done.
  - apply (f_equal String.length) in H.
    change (String y b +:+ r) with (String y (b +:+ r)) in H.
    simpl in H. rewrite !string_length_append in H. simpl in H. lia.
  - apply (f_equal String.length) in H.
    change (String x a +:+ r) with (String x (a +:+ r)) in H.
    simpl in H. rewrite !string_length_append in H. simpl in H. lia.
  - change (String x (a +:+ r) = String y (b +:+ r)) in H.
    injection H as -> H. f_equal. by apply IH.
Qed.

(** X19. Reports of two clients built in the same second get different
    file names: with the timestamp fixed, the file name determines the
    client id. *)
Theorem client_report_filename_inj (c1 c2 : Clients.row) (timestamp : string) :
  client_report_filename c1 timestamp = client_report_filename c2 timestamp →
  Clients.id c1 = Clients.id c2.
Proof.
  unfold client_report_filename. intros H.
  apply (inj (String.append "cliente_")) in H.
  apply string_append_inj_r in H. by apply (inj pretty) in H.
Qed.

Lemma client_report_filename_inj_witness :
  client_report_filename ana "20240101_100000"
    ≠ client_report_filename bob "20240101_100000".
Proof.
  intros H. apply client_report_filename_inj in H. by vm_compute in H.
Defined.

(** ** A deleted client frees its email *)

(** X20. Once a client is deleted its email can be registered again:
    [create_client] with that email succeeds and [get_client] finds the
    new record under the new id. *)
Theorem delete_client_frees_email (c : Clients.row) (name : string)
    (phone company address city country : option string) (ts : string)
    (s s1 : db) (removed : outcome bool) :
  wf_db s → c ∈ clients s →
  delete_client (Clients.id c) s = (removed, s1) →
  removed = Return true ∧
  ∃ client_id s2,
    create_client name (Clients.email c) phone company address city country ts s1
      = (Return client_id, s2) ∧
    get_client client_id s2
    = (Return (Some (Clients.mk client_id name (Clients.email c) phone company
                       address city country (Some ts) (Some ts))), s2).
Proof.
  intros Hwf Hc. rewrite delete_client_eq. cbv zeta. intros [= <- <-].
  split.
  { f_equal. apply bool_decide_eq_true_2, filter_nonempty.
    exists c. split; [done|]. by apply bool_decide_eq_true. }
  rewrite create_client_eq. simpl.
  rewrite bool_decide_eq_false_2.
  2:{ intros (o & Heq & Ho)%list_elem_of_fmap.
      apply elem_of_List_filter in Ho as [Ho Hid].
      apply negb_true_iff, bool_decide_eq_false in Hid. apply Hid. f_equal.
      by apply (NoDup_key_eq Clients.email (clients s)); [apply Hwf|..]. }
  set (rows := List.filter _ (clients s)).
  set (rowid := next_rowid _ _).
  set (row := Clients.mk rowid name (Clients.email c) phone company address
                city country (Some ts) (Some ts)).
  eexists rowid, _. split; [reflexivity|].
  rewrite get_client_eq. simpl. f_equal. f_equal.
  apply (find_key_app_fresh Clients.id rows row).
  intros o Ho Heq.
  apply (next_rowid_fresh (clients_seq s) (Clients.id <$> rows)).
  fold rowid. change rowid with (Clients.id row). rewrite <- Heq.
  by apply list_elem_of_fmap_2.
Qed.

Lemma delete_client_frees_email_witness :
  let s1 := (delete_client 1 example_db).2 in
  ∃ client_id s2,
    create_client "Ana Maria" "ana@x.com" None None None None None
      "2024-05-01 10:00:00" s1 = (Return client_id, s2) ∧
    get_client client_id s2
    = (Return (Some (Clients.mk client_id "Ana Maria" "ana@x.com" None None
                       None None None (Some "2024-05-01 10:00:00")
                       (Some "2024-05-01 10:00:00"))), s2).
Proof.
  intros s1.
  exact (proj2 (delete_client_frees_email ana "Ana Maria" None None None None
                  None "2024-05-01 10:00:00" example_db s1 (Return true)
                  wf_example_db ana_in_example_db eq_refl)).
Defined.

(** ** [get_all_reports] *)

Lemma joined_reports_fst (rs : list Reports.row) (cs : list Clients.row) :
  NoDup (Clients.id <$> cs) →
  (reports_join_clients rs cs).*1
  = filter (λ r, Reports.client_id r ∈ Clients.id <$> cs) rs.
Proof.
  intros Hnd. unfold reports_join_clients.
  induction rs as [|r rs IH]; [done|].
  rewrite bind_cons, fmap_app, IH, filter_cons.
  destruct (find_key_cases Clients.id cs (Reports.client_id r))
    as [(c & Hc & Hid) | Hnone].
  - rewrite decide_True by (rewrite <- Hid; by apply list_elem_of_fmap_2).
    unfold join_client_name. rewrite <- Hid.
    by rewrite (filter_key_unique Clients.id cs c).
  - rewrite decide_False.
    2:{ intros (c & Hid & Hc)%list_elem_of_fmap. by apply (Hnone c). }
    unfold join_client_name. by rewrite filter_key_none.
Qed.

(** X21. [get_all_reports] leaves the database as it was and returns,
    from the latest [created_at] down, every report whose [client_id] is
    the id of a client, once, with that client's name; a report whose
    client is gone is not returned. *)
Theorem get_all_reports_spec (s : report_db) :
  wf_db (main s) →
  ∃ rows,
    get_all_reports s = (Return rows, s) ∧
    StronglySorted latest_first rows ∧
    rows.*1 ≡ₚ filter (λ r, Reports.client_id r ∈ Clients.id <$> clients (main s))
                 (reports s) ∧
    (∀ r n, (r, n) ∈ rows ↔
       r ∈ reports s ∧
       ∃ c, c ∈ clients (main s) ∧ Clients.id c = Reports.client_id r ∧
            Clients.name c = n).
Proof.
  intros Hwf. eexists. split; [reflexivity|]. split; [|split].
  - apply StronglySorted_merge_sort; apply _.
  - rewrite merge_sort_Permutation. by rewrite joined_reports_fst by apply Hwf.
  - intros r n. rewrite merge_sort_Permutation.
    apply elem_of_reports_join_clients.
Qed.

Lemma get_all_reports_spec_witness :
  ∃ rows,
    get_all_reports example_report_db = (Return rows, example_report_db) ∧
    rows.*1 ≡ₚ take 2 example_reports.
Proof.
  destruct (get_all_reports_spec example_report_db wf_main_example_report_db)
    as (rows & Hrun & _ & Hperm & _).
  exists rows. split; [exact Hrun|]. exact Hperm.
Defined.
